(** * ai-core example services: fallback-aware request dispatch

    A shallow embedding of the three HTTP services under [examples/basic]:

    - [real-mcp-manager-8803.py]     (module [ContentService]),
    - [real-mcp-manager.py]          (module [McpManager]),
    - [simple-real-intent-parser.py] (module [IntentParser]),

    preceded by the Python primitives they rely on (module [Py]) and by
    the JSON values, the environment and the handler monad (module [Rt]),
    and followed by the vocabulary of the statements and by the
    properties of the dispatch: what each service answers when the
    primary call fails or no credential is set, how requests are
    normalised, what the fallbacks compute.

    Conventions.  A Python [str] is a [string] holding its UTF-8 bytes;
    whitespace and letter case are those of the ASCII range.  A Python
    [int] is a [Z]; a Python [float] is an IEEE binary64 value, computed
    with the operations of [SpecFloat] (round to nearest, ties to even).
    An exception is an explicit [Raise] result.  A request payload is a
    JSON object whose members have the types the handlers expect (text
    members, integer members).  The environment of a request (process
    environment variables, the remote HTTP peer, the clock, the [uuid4]
    generator, the hash seed) is a record [Env]; the calls a handler makes
    on the network are logged in its state.  Of a response the status and
    the JSON body are modelled, not the headers, so [do_OPTIONS], which
    sends headers only, is left out; logging, printing and [main] are not
    modelled. *)

From stdpp Require Import gmap strings.
From Stdlib Require Import ZArith String Ascii List Bool Lia SpecFloat QArith.
From Stdlib Require Import DecimalString Qabs.
Import ListNotations.

#[local] Open Scope string_scope.
#[local] Open Scope Z_scope.

(** ** Python primitives *)

Module Py.

(** *** Exceptions and results *)

Inductive exn : Type :=
  | OverflowError            (* int too large to convert to float *)
  | RequestException         (* requests: connection error or timeout *)
  | ValueError               (* response.json() on a non-JSON body *)
  | LookupError              (* KeyError, IndexError, TypeError on indexing *)
  | AttributeError (message : string)   (* an attribute the object lacks *)
  | JSONDecodeError (message : string)
  | GeminiAPIError (status_code : Z) (text : string).

Inductive result (A : Type) : Type :=
  | Return (a : A)
  | Raise (e : exn).
Arguments Return {A} a.
Arguments Raise {A} e.

Definition rbind {A B} (r : result A) (k : A -> result B) : result B :=
  match r with
  | Return a => k a
  | Raise e => Raise e
  end.

(** *** Strings *)

(** [str.isspace] on the ASCII range: TAB, LF, VT, FF, CR, FS, GS, RS, US
    and the space. *)
Definition isspace (c : ascii) : bool :=
  let n := nat_of_ascii c in
  ((9 <=? n)%nat && (n <=? 13)%nat) || ((28 <=? n)%nat && (n <=? 32)%nat).

Definition nonempty (s : string) : bool :=
  match s with EmptyString => false | String _ _ => true end.

(** [push_word w ws]: a completed word is kept unless it is empty. *)
Definition push_word (w : string) (ws : list string) : list string :=
  if nonempty w then w :: ws else ws.

(** [split_go s] reads [s] from the right: the word that is still open at
    the left end of [s], and the words completed after it. *)
Fixpoint split_go (s : string) : string * list string :=
  match s with
  | EmptyString => (EmptyString, [])
  | String c s' =>
      let '(w, ws) := split_go s' in
      if isspace c then (EmptyString, push_word w ws) else (String c w, ws)
  end.

(** [s.split()]: the maximal runs of non-whitespace characters of [s]. *)
Definition split (s : string) : list string :=
  let '(w, ws) := split_go s in push_word w ws.

(** [sep.join(ws)] *)
Definition join (sep : string) (ws : list string) : string :=
  String.concat sep ws.

(** [ws[:k]] for a Python int [k]: a negative [k] counts from the end. *)
Definition slice_to {A} (ws : list A) (k : Z) : list A :=
  if 0 <=? k then firstn (Z.to_nat k) ws
  else firstn (Z.to_nat (Z.of_nat (length ws) + k)) ws.

(** [s[:k]] on a string, for [0 <= k]. *)
Definition str_slice_to (s : string) (k : nat) : string :=
  String.substring 0 k s.

Fixpoint lstrip (s : string) : string :=
  match s with
  | String c s' => if isspace c then lstrip s' else s
  | EmptyString => EmptyString
  end.

Fixpoint rstrip (s : string) : string :=
  match s with
  | EmptyString => EmptyString
  | String c s' =>
      let t := rstrip s' in
      if isspace c && negb (nonempty t) then EmptyString else String c t
  end.

(** [s.strip()] *)
Definition strip (s : string) : string := rstrip (lstrip s).

Definition lower_char (c : ascii) : ascii :=
  let n := nat_of_ascii c in
  if (65 <=? n)%nat && (n <=? 90)%nat then ascii_of_nat (n + 32) else c.

(** [s.lower()] *)
Fixpoint lower (s : string) : string :=
  match s with
  | EmptyString => EmptyString
  | String c s' => String (lower_char c) (lower s')
  end.

(** [s.startswith(p)] *)
Fixpoint startswith (p s : string) : bool :=
  match p, s with
  | EmptyString, _ => true
  | String a p', String b s' => Ascii.eqb a b && startswith p' s'
  | String _ _, EmptyString => false
  end.

(** [sub in s]: [sub] starts at some position of [s]. *)
Fixpoint contains (sub s : string) : bool :=
  startswith sub s ||
  match s with
  | EmptyString => false
  | String _ s' => contains sub s'
  end.

(** [any(p(x) for x in xs)] *)
Definition any {A} (p : A -> bool) (xs : list A) : bool := existsb p xs.

(** [s.replace(a, b)] for single characters [a], [b]. *)
Fixpoint replace_char (a b : ascii) (s : string) : string :=
  match s with
  | EmptyString => EmptyString
  | String c s' =>
      String (if Ascii.eqb c a then b else c) (replace_char a b s')
  end.

(** [s.split(sep)[0]] for a single character [sep]. *)
Fixpoint before_char (sep : ascii) (s : string) : string :=
  match s with
  | EmptyString => EmptyString
  | String c s' =>
      if Ascii.eqb c sep then EmptyString else String c (before_char sep s')
  end.

(** Truthiness of an optional string ([None] and [''] are falsy). *)
Definition truthy (o : option string) : bool :=
  match o with
  | Some s => nonempty s
  | None => false
  end.

(** The double-quote character. *)
Definition dquote : string := String (ascii_of_nat 34) EmptyString.

(** [str(z)] for an int [z]: its decimal digits. *)
Definition str_of_int (z : Z) : string :=
  NilEmpty.string_of_int (Z.to_int z).

(** *** Floats (IEEE binary64) *)

Definition prec : Z := 53.
Definition emax : Z := 1024.

Abbreviation float := spec_float.

(** Exact conversion where representable, round-to-nearest-even otherwise. *)
Definition float_of_Z (z : Z) : float := binary_normalize prec emax z 0 false.

(** [float(z)] as performed by an [int * float] operation: Python raises
    [OverflowError] when the integer is beyond the finite floats. *)
Definition float_of_int (z : Z) : result float :=
  match float_of_Z z with
  | S754_infinity _ => Raise OverflowError
  | f => Return f
  end.

(** The binary64 value nearest to the decimal [num / den], which is how a
    decimal literal of the source is read. *)
Definition literal (num den : Z) : float :=
  SFdiv prec emax (float_of_Z num) (float_of_Z den).

Definition fmul (x y : float) : float := SFmul prec emax x y.
Definition fadd (x y : float) : float := SFadd prec emax x y.

(** [z * f] for an int [z] and a float [f]. *)
Definition int_mul_float (z : Z) (f : float) : result float :=
  rbind (float_of_int z) (fun x => Return (fmul x f)).

(** [n < f] for an int [n] and a float [f]: Python compares the two
    values exactly. *)
Definition int_lt_float (n : Z) (f : float) : bool :=
  match f with
  | S754_zero _ => n <? 0
  | S754_infinity s => negb s
  | S754_nan => false
  | S754_finite s m e =>
      let v := if s then Z.neg m else Z.pos m in
      if 0 <=? e then n <? v * 2 ^ e else n * 2 ^ (- e) <? v
  end.

(** The rational value of a finite float. *)
Definition Qvalue (f : float) : Q :=
  match f with
  | S754_finite s m e =>
      let v := if s then Z.neg m else Z.pos m in
      if 0 <=? e then inject_Z (v * 2 ^ e)
      else Qmake v (Z.to_pos (2 ^ (- e)))
  | _ => 0%Q
  end.

End Py.

(** ** JSON values, the environment of a request and the handler monad *)

Module Rt.
Import Py.

(** A JSON value; an object keeps its members in the order of the source's
    dict literal. *)
#[warnings="-register-all"]
Inductive json : Type :=
  | JNull
  | JBool (b : bool)
  | JInt (z : Z)
  | JFloat (f : float)
  | JStr (s : string)
  | JList (items : list json)
  | JObj (members : list (string * json)).

Fixpoint assoc (k : string) (ms : list (string * json)) : option json :=
  match ms with
  | [] => None
  | (k', v) :: ms' => if String.eqb k k' then Some v else assoc k ms'
  end.

(** [j[k]] / [k in j] on an object; [None] on any other value. *)
Definition jget (k : string) (j : json) : option json :=
  match j with
  | JObj ms => assoc k ms
  | _ => None
  end.

(** Descend along a path of member names. *)
Fixpoint jpath (ks : list string) (j : json) : option json :=
  match ks with
  | [] => Some j
  | k :: ks' =>
      match jget k j with
      | Some v => jpath ks' v
      | None => None
      end
  end.

(** [type(j).__name__] *)
Definition type_name (j : json) : string :=
  match j with
  | JNull => "NoneType"
  | JBool _ => "bool"
  | JInt _ => "int"
  | JFloat _ => "float"
  | JStr _ => "str"
  | JList _ => "list"
  | JObj _ => "dict"
  end.

(** The exception of [j.attr] when the type of [j] has no such attribute. *)
Definition no_attribute (j : json) (attr : string) : exn :=
  AttributeError
    ("'" ++ type_name j ++ "' object has no attribute '" ++ attr ++ "'").

(** [j.get(k, d)]: only a dict has the method. *)
Definition jget_default (k : string) (d : json) (j : json) : result json :=
  match j with
  | JObj ms => Return (match assoc k ms with Some v => v | None => d end)
  | _ => Raise (no_attribute j "get")
  end.

(** Truthiness of a JSON value in an [if]. *)
Definition json_truthy (j : json) : bool :=
  match j with
  | JNull => false
  | JBool b => b
  | JInt z => negb (z =? 0)
  | JFloat (S754_zero _) => false
  | JFloat _ => true
  | JStr s => nonempty s
  | JList l => match l with [] => false | _ => true end
  | JObj ms => match ms with [] => false | _ => true end
  end.

(** [if response:] on an optional JSON value: [Some] when it is truthy. *)
Definition answered (response : option json) : option json :=
  match response with
  | Some r => if json_truthy r then Some r else None
  | None => None
  end.

(** The body of an incoming POST, as the typed payload the handlers expect:
    text members and integer members of the JSON object.  [NotJson] is a
    body that [json.loads] rejects, with the decoder's message. *)
Record request : Type := {
  text : gmap string string;
  ints : gmap string Z
}.

Inductive payload : Type :=
  | NotJson (message : string)
  | Json (request_data : request).

(** An outbound [requests.post] and what comes back. *)
Record outbound : Type := {
  url : string;
  headers : list (string * string);
  body : json
}.

Inductive http_outcome : Type :=
  | ConnectionFailed                      (* RequestException: refused, timeout *)
  | Responded (status_code : Z) (text : string) (parsed : option json).
      (* [parsed] is [response.json()], [None] when it raises *)

Record Env : Type := {
  GEMINI_API_KEY : option string;         (* os.getenv('GEMINI_API_KEY') *)
  requests_post : outbound -> http_outcome;
  uuid4_hex : nat -> string;              (* hex digits of the n-th uuid4 *)
  hash : string -> Z;                     (* the process's str hash *)
  json_loads : string -> option json;     (* json.loads; None when it raises *)
  utcnow_isoformat : string;              (* datetime.utcnow().isoformat() *)
  gmtime_strftime : string;               (* time.strftime(..., time.gmtime()) *)
  time_time : Z;                          (* int(time.time()) *)
  elapsed_ms : Z                          (* int((time.time() - start) * 1000) *)
}.

(** What a handler changes: the log of outbound calls (latest first) and
    the number of uuids drawn. *)
Record state : Type := {
  calls : list outbound;
  drawn : nat
}.

Definition M (A : Type) : Type := state -> result A * state.

Definition ret {A} (a : A) : M A := fun st => (Return a, st).

Definition raise {A} (e : exn) : M A := fun st => (Raise e, st).

Definition bind {A B} (m : M A) (k : A -> M B) : M B :=
  fun st =>
    match m st with
    | (Return a, st') => k a st'
    | (Raise e, st') => (Raise e, st')
    end.

(** [try: m  except Exception as e: h e] *)
Definition try_except {A} (m : M A) (h : exn -> M A) : M A :=
  fun st =>
    match m st with
    | (Return a, st') => (Return a, st')
    | (Raise e, st') => h e st'
    end.

Definition lift {A} (r : result A) : M A := fun st => (r, st).

Definition uuid4 (env : Env) : M string :=
  fun st =>
    (Return (uuid4_hex env (drawn st)),
     {| calls := calls st; drawn := S (drawn st) |}).

(** [requests.post(...)]: the call is logged, then answered by the peer. *)
Definition post (env : Env) (o : outbound) : M http_outcome :=
  fun st =>
    (Return (requests_post env o),
     {| calls := o :: calls st; drawn := drawn st |}).

(** [str(u)] for a uuid with hex digits [h]: 8-4-4-4-12. *)
Definition str_uuid (h : string) : string :=
  String.substring 0 8 h ++ "-" ++ String.substring 8 4 h ++ "-" ++
  String.substring 12 4 h ++ "-" ++ String.substring 16 4 h ++ "-" ++
  String.substring 20 12 h.

(** [str(e)].  The messages of [RequestException], [ValueError] and
    [LookupError] are placeholders: every handler catches these before any
    message is sent. *)
Definition str_exn (e : exn) : string :=
  match e with
  | OverflowError => "int too large to convert to float"
  | RequestException => "request failed"
  | ValueError => "Expecting value"
  | LookupError => "lookup failed"
  | AttributeError msg => msg
  | JSONDecodeError msg => msg
  | GeminiAPIError status_code text =>
      "Gemini API error: " ++ str_of_int status_code ++ " - " ++ text
  end.

(** [json.loads(post_data)] on the request body. *)
Definition loads_request (p : payload) : result request :=
  match p with
  | NotJson msg => Raise (JSONDecodeError msg)
  | Json r => Return r
  end.

(** [d.get(k, default)] on the text members of a request. *)
Definition get (request_data : request) (k : string) (d : string) : string :=
  match text request_data !! k with
  | Some v => v
  | None => d
  end.

(** A response: HTTP status code and JSON body. *)
Definition response : Type := Z * json.

#[global] Instance M_ret : MRet M := @ret.
#[global] Instance M_bind : MBind M := fun A B k m => bind m k.

(** What comes back from a [requests.get]. *)
Inductive get_outcome : Type :=
  | GetFailed                             (* any exception: refused, timeout *)
  | GetResponded (status_code : Z).

(** The log entry of a [requests.get(url)]: no header of the caller's own,
    no body. *)
Definition probe (url : string) : outbound :=
  {| url := url; headers := []; body := JNull |}.

End Rt.


(** ** The content service: [real-mcp-manager-8803.py] *)

Module ContentService.
Import Py Rt.

Definition gemini_endpoint : string :=
  "https://generativelanguage.googleapis.com/v1beta/models/gemini-2.0-flash:generateContent".

(** The section template of [generate_fallback_content]. *)
Definition template (topic : string) : string :=
"<h2>Understanding " ++ topic ++ ": A Comprehensive Guide</h2>

<p>The field of " ++ topic ++ " represents a significant opportunity for organizations looking to enhance their capabilities and drive meaningful results. This comprehensive overview explores the key aspects that professionals need to understand.</p>

<h3>Key Benefits and Opportunities</h3>

<ul>
<li><strong>Enhanced Efficiency</strong>: Streamline processes and reduce manual overhead</li>
<li><strong>Improved Quality</strong>: Achieve more consistent and reliable outcomes</li>
<li><strong>Strategic Advantage</strong>: Gain competitive positioning in the marketplace</li>
<li><strong>Innovation Catalyst</strong>: Enable new approaches and solutions</li>
</ul>

<h3>Implementation Considerations</h3>

<p>Successful implementation of " ++ topic ++ " requires careful planning and strategic thinking. Organizations should consider their unique requirements, existing infrastructure, and long-term objectives when developing their approach.</p>

<h3>Best Practices</h3>

<p>Industry leaders recommend focusing on:</p>

<ol>
<li><strong>Clear Goal Setting</strong>: Define specific, measurable objectives</li>
<li><strong>Stakeholder Engagement</strong>: Ensure buy-in across the organization</li>
<li><strong>Iterative Development</strong>: Start small and scale progressively</li>
<li><strong>Continuous Learning</strong>: Adapt based on results and feedback</li>
</ol>

<h3>Future Outlook</h3>

<p>The landscape of " ++ topic ++ " continues to evolve rapidly, creating new opportunities for forward-thinking organizations. Those who invest in understanding and implementing these concepts strategically will be well-positioned for long-term success.</p>

<h3>Conclusion</h3>

<p>" ++ topic ++ " offers significant potential for organizations ready to embrace change and innovation. By following proven best practices and maintaining focus on value creation, businesses can achieve meaningful and sustainable improvements in their operations and outcomes.</p>".

(** The section appended to a template that is too short. *)
Definition additional (topic : string) : string :=
"

<h3>Additional Insights</h3>

<p>Research shows that organizations implementing " ++ topic ++ " strategies report significant improvements in operational efficiency and customer satisfaction. The key is to approach implementation systematically, with clear metrics for success and regular review processes.</p>

<p>As the field continues to mature, new tools and methodologies are emerging that make implementation more accessible and effective. Staying current with these developments is essential for maximizing the value of your investment in " ++ topic ++ ".</p>".

(** The length adjustment that ends [generate_fallback_content], for a
    template text and the section to append:
    [words = template.split()], then truncate when
    [len(words) > word_count], extend when
    [len(words) < word_count * 0.8], else leave the template as it is. *)
Definition adjust_length (template additional : string) (word_count : Z)
  : result string :=
  let words := split template in
  if Z.of_nat (length words) >? word_count then
    let words := slice_to words word_count in
    Return (join " " words ++ "</p>")
  else
    rbind (int_mul_float word_count (literal 8 10)) (fun threshold =>
    if int_lt_float (Z.of_nat (length words)) threshold then
      Return (template ++ additional)
    else
      Return template).

Definition generate_fallback_content (topic : string) (word_count : Z)
  : result string :=
  adjust_length (template topic) (additional topic) word_count.

(** The text of [generate_social_content]. *)
Definition social_text (topic : string) : string :=
"🚀 Exciting insights on " ++ topic ++ "!

Key takeaways:
✨ Innovation drives transformation
📈 Strategic implementation yields results
🎯 Focus on value creation
💡 Embrace change for competitive advantage

#AI #Innovation #Technology #BusinessGrowth".

Definition prompt (topic : string) (word_count : Z) : string :=
"Write a comprehensive blog post about " ++ dquote ++ topic ++ dquote ++ ".
        Target length: approximately " ++ str_of_int word_count ++ " words.

        Requirements:
        - Professional, engaging tone
        - Include practical insights and actionable advice
        - Structure with clear headings and bullet points
        - Focus on real-world applications and benefits
        - Include a compelling introduction and conclusion

        Format the response as clean HTML with proper headings (h2, h3), paragraphs, and lists.".

(** [len(j) > 0] for a JSON value that has a length. *)
Definition json_empty (j : json) : option bool :=
  match j with
  | JList l => Some match l with [] => true | _ => false end
  | JObj ms => Some match ms with [] => true | _ => false end
  | JStr s => Some (negb (nonempty s))
  | _ => None
  end.

(** The extraction of [call_gemini_api]:
    [if 'candidates' in result and len(result['candidates']) > 0:
       return result['candidates'][0]['content']['parts'][0]['text'].strip()].
    [None] stands for the test being false; a value of another shape
    raises while it is indexed ([LookupError] stands for [KeyError],
    [IndexError] and [TypeError]: every caller catches [Exception]). *)
Definition candidate_text (result : json) : option (Py.result string) :=
  match jget "candidates" result with
  | None => None
  | Some candidates =>
      match json_empty candidates with
      | Some true => None
      | None => Some (Raise LookupError)
      | Some false =>
          Some
            match candidates with
            | JList (c :: _) =>
                match jpath ["content"; "parts"] c with
                | Some (JList (p :: _)) =>
                    match jget "text" p with
                    | Some (JStr t) => Return (strip t)
                    | Some t => Raise (no_attribute t "strip")
                    | None => Raise LookupError
                    end
                | _ => Raise LookupError
                end
            | _ => Raise LookupError
            end
      end
  end.

(** [request_data.get('definition', request_data.get('topic', 'AI automation'))],
    the first line of the three handlers. *)
Definition topic_of (request_data : request) : string :=
  match text request_data !! "definition" with
  | Some v => v
  | None => get request_data "topic" "AI automation"
  end.

(** [request_data.get('word_count', 800)] *)
Definition word_count_of (request_data : request) : Z :=
  match ints request_data !! "word_count" with
  | Some n => n
  | None => 800
  end.

Section Handlers.
Context (env : Env).

(** [requests] leaves out a header whose value is [None]. *)
Definition api_headers : list (string * string) :=
  ("Content-Type", "application/json") ::
  match GEMINI_API_KEY env with
  | Some key => [("x-goog-api-key", key)]
  | None => []
  end.

Definition call_gemini_api (topic : string) (word_count : Z) : M string :=
  let payload :=
    JObj [("contents",
           JList [JObj [("parts",
                         JList [JObj [("text",
                                       JStr (prompt topic word_count))]])]]);
          ("generationConfig",
           JObj [("temperature", JFloat (literal 7 10));
                 ("topK", JInt 40);
                 ("topP", JFloat (literal 95 100));
                 ("maxOutputTokens", JInt (word_count * 2))])] in
  response ← post env {| url := gemini_endpoint; headers := api_headers;
                         body := payload |};
  match response with
  | ConnectionFailed => raise RequestException
  | Responded status_code text parsed =>
      let failed := raise (GeminiAPIError status_code text) in
      if status_code =? 200 then
        match parsed with
        | None => raise ValueError
        | Some result =>
            match candidate_text result with
            | Some content => lift content
            | None => failed
            end
        end
      else failed
  end.

(** [4.7 + (hash(content) % 6) * 0.05] *)
Definition primary_quality_score (content : string) : result float :=
  rbind (int_mul_float (hash env content mod 6) (literal 5 100))
        (fun x => Return (fadd (literal 47 10) x)).

Definition generate_blog_content (request_data : request) : M json :=
  let topic := topic_of request_data in
  let word_count := word_count_of request_data in
  u ← uuid4 env;
  let execution_id := "real_" ++ str_slice_to u 8 in
  '(content, quality_score, ai_generated) ←
    try_except
      (if truthy (GEMINI_API_KEY env) then
         content ← call_gemini_api topic word_count;
         quality_score ← lift (primary_quality_score content);
         mret (content, quality_score, true)
       else
         content ← lift (generate_fallback_content topic word_count);
         mret (content, literal 42 10, false))
      (fun e =>
         content ← lift (generate_fallback_content topic word_count);
         mret (content, literal 40 10, false));
  let execution_time := elapsed_ms env in
  mret (JObj
    [("execution_id", JStr execution_id);
     ("status", JStr "completed");
     ("result", JObj
        [("content", JStr content);
         ("word_count", JInt (Z.of_nat (length (split content))));
         ("quality_score", JFloat quality_score);
         ("execution_time_ms", JInt execution_time);
         ("metadata", JObj
            [("ai_generated", JBool ai_generated);
             ("service", JStr "real-mcp-manager");
             ("model", JStr (if ai_generated then "gemini-2.0-flash"
                             else "template-fallback"));
             ("timestamp", JStr (gmtime_strftime env))])])]).

Definition generate_social_content (request_data : request) : M json :=
  let topic := topic_of request_data in
  u ← uuid4 env;
  let execution_id := "social_" ++ str_slice_to u 8 in
  let content := social_text topic in
  mret (JObj
    [("execution_id", JStr execution_id);
     ("status", JStr "completed");
     ("result", JObj
        [("content", JStr content);
         ("word_count", JInt (Z.of_nat (length (split content))));
         ("quality_score", JFloat (literal 44 10));
         ("execution_time_ms", JInt 800);
         ("metadata", JObj
            [("service", JStr "real-mcp-manager");
             ("content_type", JStr "social_media");
             ("timestamp", JStr (gmtime_strftime env))])])]).

Definition generate_generic_content (request_data : request) : M json :=
  let topic := topic_of request_data in
  u ← uuid4 env;
  let execution_id := "generic_" ++ str_slice_to u 8 in
  content ← lift (generate_fallback_content topic 600);
  mret (JObj
    [("execution_id", JStr execution_id);
     ("status", JStr "completed");
     ("result", JObj
        [("content", JStr content);
         ("word_count", JInt (Z.of_nat (length (split content))));
         ("quality_score", JFloat (literal 43 10));
         ("execution_time_ms", JInt 1200);
         ("metadata", JObj
            [("service", JStr "real-mcp-manager");
             ("content_type", JStr "generic");
             ("timestamp", JStr (gmtime_strftime env))])])]).

Definition do_POST (post_data : payload) : M response :=
  try_except
    (request_data ← lift (loads_request post_data);
     let content_type := get request_data "content_type" "blog_post" in
     response ←
       (if String.eqb content_type "blog_post" then
          generate_blog_content request_data
        else if String.eqb content_type "social_media" then
          generate_social_content request_data
        else
          generate_generic_content request_data);
     mret (200, response))
    (fun e =>
       mret (500, JObj
         [("execution_id", JStr ("error_" ++ str_of_int (time_time env)));
          ("status", JStr "error");
          ("error", JStr (str_exn e));
          ("result", JObj
             [("content", JStr "Failed to generate content");
              ("quality_score", JFloat (literal 0 10));
              ("execution_time_ms", JInt 100)])])).

Definition send_json_response (status_code : Z) (data : json) : M response :=
  mret (status_code, data).

Definition send_health_response : M response :=
  let health_data :=
    JObj [("status", JStr "healthy");
          ("service", JStr "real-mcp-manager");
          ("version", JStr "1.0.0");
          ("timestamp", JStr (gmtime_strftime env));
          ("capabilities", JObj
             [("gemini_ai", JBool (truthy (GEMINI_API_KEY env)));
              ("content_types",
               JList [JStr "blog_post"; JStr "social_media"; JStr "generic"]);
              ("max_word_count", JInt 2000)])] in
  send_json_response 200 health_data.

Definition send_capabilities_response : M response :=
  let capabilities :=
    JObj [("service", JStr "real-mcp-manager");
          ("version", JStr "1.0.0");
          ("supported_content_types",
           JList [JStr "blog_post"; JStr "social_media";
                  JStr "email_newsletter"; JStr "generic"]);
          ("ai_integration", JObj
             [("primary_model", JStr "gemini-2.0-flash");
              ("fallback", JStr "template-based");
              ("available", JBool (truthy (GEMINI_API_KEY env)))]);
          ("max_word_count", JInt 2000);
          ("average_response_time_ms", JInt 1500);
          ("quality_score_range",
           JList [JFloat (literal 40 10); JFloat (literal 50 10)])] in
  send_json_response 200 capabilities.

Definition send_default_response : M response :=
  let response :=
    JObj [("message", JStr "Real MCP Manager - AI-CORE Integration");
          ("service", JStr "real-mcp-manager");
          ("endpoints", JObj
             [("health", JStr "/health");
              ("capabilities", JStr "/capabilities");
              ("generate", JStr "POST /")]);
          ("timestamp", JStr (gmtime_strftime env))] in
  send_json_response 200 response.

Definition do_GET (path : string) : M response :=
  if String.eqb path "/health" then send_health_response
  else if String.eqb path "/capabilities" then send_capabilities_response
  else send_default_response.

End Handlers.

End ContentService.

(** ** The MCP manager: [real-mcp-manager.py] *)

Module McpManager.
Import Py Rt.

(** The class attribute [MCP_SERVICES], in the order of the dict literal. *)
Definition MCP_SERVICES : list (string * string) :=
  [("content_generation", "http://localhost:8804");
   ("text_processing", "http://localhost:8805");
   ("image_generation", "http://localhost:8806")].

Section Handlers.
Context (env : Env).

Definition now : string := utcnow_isoformat env ++ "Z".

Definition _send_json_response (data : json) (status_code : Z) : M response :=
  mret (status_code, data).

Definition _send_error_response (status_code : Z) (message : string)
  : M response :=
  let error_data :=
    JObj [("error", JBool true);
          ("message", JStr message);
          ("status_code", JInt status_code);
          ("timestamp", JStr now)] in
  _send_json_response error_data status_code.

(** [None] is Python's [None]: a status other than 200, or any exception. *)
Definition _call_mcp_service (url : string) (data : json) : M (option json) :=
  try_except
    (response ← post env {| url := url;
                            headers := [("Content-Type", "application/json")];
                            body := data |};
     match response with
     | ConnectionFailed => raise RequestException
     | Responded status_code _ parsed =>
         if status_code =? 200 then
           match parsed with
           | Some result => mret (Some result)
           | None => raise ValueError
           end
         else mret None
     end)
    (fun _ => mret None).

Definition _send_fallback_response (request_data : request) : M response :=
  u ← uuid4 env;
  let execution_id := str_uuid u in
  let intent := get request_data "intent" "Generate content" in
  let fallback_response :=
    JObj
      [("execution_id", JStr execution_id);
       ("status", JStr "completed");
       ("result", JObj
          [("content",
            JStr ("High-quality content for: " ++ intent ++
                  ". This fallback ensures system reliability."));
           ("title",
            JStr ("Professional Response: " ++ str_slice_to intent 50 ++ "..."));
           ("quality_score", JFloat (literal 42 10));
           ("execution_time_ms", JInt 1500);
           ("fallback_used", JBool true);
           ("message",
            JStr "MCP services temporarily unavailable, using fallback generation")]);
       ("warning",
        JStr "Using fallback content generation due to MCP service unavailability")] in
  _send_json_response fallback_response 200.

Definition _handle_content_generation (request_data : request) : M response :=
  try_except
    (let intent := get request_data "intent" "Generate content" in
     let content_type := get request_data "content_type" "blog_post" in
     let user_id := get request_data "user_id" "anonymous" in
     let mcp_request :=
       JObj [("prompt", JStr intent);
             ("type", JStr content_type);
             ("user_id", JStr user_id);
             ("timestamp", JStr now)] in
     response ← _call_mcp_service "http://localhost:8804/generate" mcp_request;
     match answered response with
     | Some response =>
         u ← uuid4 env;
         let execution_id := str_uuid u in
         content ← lift (jget_default "content" (JStr "Generated content") response);
         title ← lift (jget_default "title" (JStr "Generated Title") response);
         quality_score ← lift (jget_default "quality_score" (JFloat (literal 45 10)) response);
         word_count ← lift (jget_default "word_count" (JInt 500) response);
         execution_time_ms ← lift (jget_default "execution_time_ms" (JInt 2000) response);
         let formatted_response :=
           JObj
             [("execution_id", JStr execution_id);
              ("status", JStr "completed");
              ("result", JObj
                 [("content", content);
                  ("title", title);
                  ("quality_score", quality_score);
                  ("word_count", word_count);
                  ("execution_time_ms", execution_time_ms);
                  ("model_used", JStr "gemini-1.5-flash");
                  ("generated_at", JStr now);
                  ("real_ai_content", JBool true)]);
              ("metadata", JObj
                 [("service", JStr "demo-content-mcp");
                  ("version", JStr "1.0.0");
                  ("request_id", JStr execution_id)])] in
         _send_json_response formatted_response 200
     | None => _send_fallback_response request_data
     end)
    (fun _ => _send_fallback_response request_data).

Definition _handle_blog_generation (request_data : request) : M response :=
  try_except
    (let intent := get request_data "intent" "Write a blog post" in
     let mcp_request :=
       JObj [("prompt", JStr intent);
             ("type", JStr "blog_post");
             ("enhanced", JBool true);
             ("include_seo", JBool true);
             ("target_length", JInt 800);
             ("timestamp", JStr now)] in
     response ← _call_mcp_service "http://localhost:8804/generate/blog" mcp_request;
     match answered response with
     | Some response =>
         u ← uuid4 env;
         let execution_id := str_uuid u in
         title ← lift (jget_default "title" (JStr "AI-Generated Blog Post") response);
         content ← lift (jget_default "content"
           (JStr "<h1>Real AI Content</h1><p>This is real AI-generated content...</p>")
           response);
         meta_description ← lift (jget_default "meta_description"
           (JStr "AI-generated meta description") response);
         word_count ← lift (jget_default "word_count" (JInt 847) response);
         reading_time ← lift (jget_default "reading_time" (JInt 4) response);
         seo_keywords ← lift (jget_default "keywords"
           (JList [JStr "AI"; JStr "automation"; JStr "technology"]) response);
         overall_score ← lift (jget_default "quality_score" (JFloat (literal 48 10)) response);
         content_quality ← lift (jget_default "content_quality" (JFloat (literal 45 10)) response);
         seo_score ← lift (jget_default "seo_score" (JFloat (literal 43 10)) response);
         readability_score ← lift (jget_default "readability_score" (JFloat (literal 46 10)) response);
         execution_time_ms ← lift (jget_default "execution_time_ms" (JInt 3500) response);
         let blog_response :=
           JObj
             [("execution_id", JStr execution_id);
              ("status", JStr "completed");
              ("result", JObj
                 [("blog_post", JObj
                     [("title", title);
                      ("content", content);
                      ("meta_description", meta_description);
                      ("word_count", word_count);
                      ("reading_time", reading_time);
                      ("seo_keywords", seo_keywords);
                      ("generated_at", JStr now)]);
                  ("quality_scores", JObj
                     [("overall_score", overall_score);
                      ("content_quality", content_quality);
                      ("seo_score", seo_score);
                      ("readability_score", readability_score)]);
                  ("execution_time_ms", execution_time_ms);
                  ("real_ai_generation", JBool true)])] in
         _send_json_response blog_response 200
     | None => _send_fallback_response request_data
     end)
    (fun _ => _send_fallback_response request_data).

Definition _handle_generic_request (request_data : request) : M response :=
  _handle_content_generation request_data.

(** The class has no [_handle_text_processing]: the attribute lookup in
    [do_POST] raises. *)
Definition do_POST (path : string) (post_data : payload) : M response :=
  try_except
    (request_data ← lift (loads_request post_data);
     if String.eqb path "/generate/content" then
       _handle_content_generation request_data
     else if String.eqb path "/generate/blog" then
       _handle_blog_generation request_data
     else if String.eqb path "/process/text" then
       raise (AttributeError
                "'RealMCPHandler' object has no attribute '_handle_text_processing'")
     else
       _handle_generic_request request_data)
    (fun e =>
       _send_error_response 500 ("Internal server error: " ++ str_exn e)).

(** The GET side probes the content peer with [requests.get].  What a
    probe answers may depend on the calls made before it. *)
Section Probes.
Context (requests_get : list outbound -> string -> get_outcome).

(** [True] when the peer answers 200; the bare [except] turns any
    exception into [False]. *)
Definition _check_service_health (url : string) : M bool :=
  fun st =>
    let target := url ++ "/health" in
    (Return match requests_get (calls st) target with
            | GetResponded status_code => status_code =? 200
            | GetFailed => false
            end,
     {| calls := probe target :: calls st; drawn := drawn st |}).

Definition _handle_health : M response :=
  try_except
    (demo_content_status ← _check_service_health "http://localhost:8804";
     let health_data :=
       JObj [("status", JStr "healthy");
             ("service", JStr "mcp-manager-real");
             ("version", JStr "1.0.0");
             ("timestamp", JStr now);
             ("mcp_services", JObj
                [("demo_content_mcp", JObj
                    [("url", JStr "http://localhost:8804");
                     ("status", JStr (if (demo_content_status : bool) then "healthy"
                                      else "unhealthy"));
                     ("type", JStr "REAL")])])] in
     _send_json_response health_data 200)
    (fun _ => _send_error_response 500 "Health check failed").

Definition _handle_services_list : M response :=
  status ← _check_service_health "http://localhost:8804";
  counted ← _check_service_health "http://localhost:8804";
  let services_data :=
    JObj [("services", JList
             [JObj [("name", JStr "demo-content-mcp");
                    ("url", JStr "http://localhost:8804");
                    ("type", JStr "content_generation");
                    ("status", JStr (if (status : bool) then "healthy"
                                     else "unhealthy"));
                    ("capabilities",
                     JList [JStr "blog_posts"; JStr "articles";
                            JStr "seo_content"])]]);
          ("total_services", JInt 1);
          ("healthy_services", JInt (if (counted : bool) then 1 else 0))] in
  _send_json_response services_data 200.

Definition _handle_default_get : M response :=
  let info_data :=
    JObj [("service", JStr "Real MCP Manager");
          ("version", JStr "1.0.0");
          ("description",
           JStr "Routes requests to real MCP services for AI-powered content generation");
          ("endpoints", JList
             [JStr "GET /health - Service health check";
              JStr "GET /services - List available MCP services";
              JStr "POST /generate/content - Generate content";
              JStr "POST /generate/blog - Generate blog posts"]);
          ("mcp_services", JList (map (fun kv : string * string => JStr (fst kv)) MCP_SERVICES));
          ("real_ai_enabled", JBool true)] in
  _send_json_response info_data 200.

(** The class has no [_handle_service_status]: the attribute lookup raises,
    and nothing in [do_GET] catches it. *)
Definition do_GET (path : string) : M response :=
  if String.eqb path "/health" then _handle_health
  else if String.eqb path "/services" then _handle_services_list
  else if startswith "/services/" path then
    raise (AttributeError
             "'RealMCPHandler' object has no attribute '_handle_service_status'")
  else _handle_default_get.

End Probes.

End Handlers.

End McpManager.

(** ** The intent parser: [simple-real-intent-parser.py] *)

Module IntentParser.
Import Py Rt.

Definition gemini_url : string :=
  "https://generativelanguage.googleapis.com/v1beta/models/gemini-2.0-flash:generateContent".

(** [s.find(c)]: the index of the first [c], or -1. *)
Fixpoint find (c : ascii) (s : string) : Z :=
  match s with
  | EmptyString => -1
  | String a s' =>
      if Ascii.eqb a c then 0
      else let i := find c s' in if i =? -1 then -1 else i + 1
  end.

(** [s.rfind(c)]: the index of the last [c], or -1. *)
Fixpoint rfind (c : ascii) (s : string) : Z :=
  match s with
  | EmptyString => -1
  | String a s' =>
      let i := rfind c s' in
      if i =? -1 then (if Ascii.eqb a c then 0 else -1) else i + 1
  end.

(** [s[i:j]] for [0 <= i <= j]. *)
Definition slice (s : string) (i j : Z) : string :=
  String.substring (Z.to_nat i) (Z.to_nat (j - i)) s.

(** [j[0]] on a JSON value. *)
Definition first_item (j : json) : result json :=
  match j with
  | JList (x :: _) => Return x
  | JStr (String c _) => Return (JStr (String c EmptyString))
  | _ => Raise LookupError
  end.

Definition intent_prompt (user_input : string) : string :=
"Analyze this user request and extract the intent for workflow creation:

User Request: " ++ user_input ++ "

Please identify:
1. The main workflow type (blog-post-generation, content-creation, etc.)
2. The specific topic or subject matter
3. Any special requirements or preferences
4. Suggested title for the content

Respond in this JSON format:
{
    " ++ dquote ++ "workflow_type" ++ dquote ++ ": " ++ dquote ++ "blog-post-generation" ++ dquote ++ ",
    " ++ dquote ++ "topic" ++ dquote ++ ": " ++ dquote ++ "extracted topic" ++ dquote ++ ",
    " ++ dquote ++ "title" ++ dquote ++ ": " ++ dquote ++ "suggested title" ++ dquote ++ ",
    " ++ dquote ++ "requirements" ++ dquote ++ ": [" ++ dquote ++ "requirement1" ++ dquote ++ ", " ++ dquote ++ "requirement2" ++ dquote ++ "],
    " ++ dquote ++ "confidence" ++ dquote ++ ": 0.95
}".

(** The two keyword lists of [_create_fallback_intent]. *)
Definition blog_words : list string := ["blog"; "post"; "article"; "write"].
Definition image_words : list string := ["image"; "picture"; "photo"].

(** The rule-based detection of [_create_fallback_intent]: the workflow
    type and the function name. *)
Definition detect (user_input : string) : string * string :=
  if any (fun word => contains word (lower user_input)) blog_words then
    ("blog-post-generation", "create_blog_post")
  else if any (fun word => contains word (lower user_input)) image_words then
    ("image-generation", "create_image")
  else
    ("content-generation", "create_content").

(** [request_data.get('input', request_data.get('text', ''))] *)
Definition user_input_of (request_data : request) : string :=
  match text request_data !! "input" with
  | Some v => v
  | None => get request_data "text" EmptyString
  end.

Section Handlers.
Context (env : Env).

Definition now : string := utcnow_isoformat env ++ "Z".

Definition _send_json_response (data : json) (status_code : Z) : M response :=
  mret (status_code, data).

Definition _send_error_response (status_code : Z) (message : string)
  : M response :=
  let error_data :=
    JObj [("error", JBool true);
          ("message", JStr message);
          ("status_code", JInt status_code);
          ("timestamp", JStr now)] in
  _send_json_response error_data status_code.

(** [None] is Python's [None]: no key, a status other than 200, or any
    exception. *)
Definition _call_gemini_api (user_input : string) : M (option json) :=
  try_except
    (match GEMINI_API_KEY env with
     | Some gemini_api_key =>
         if nonempty gemini_api_key then
           let payload :=
             JObj [("contents",
                    JList [JObj [("parts",
                                  JList [JObj [("text",
                                                JStr (intent_prompt user_input))]])]]);
                   ("generationConfig",
                    JObj [("temperature", JFloat (literal 1 10));
                          ("maxOutputTokens", JInt 1000)])] in
           let headers :=
             [("Content-Type", "application/json");
              ("x-goog-api-key", gemini_api_key)] in
           response ← post env {| url := gemini_url; headers := headers;
                                  body := payload |};
           match response with
           | ConnectionFailed => raise RequestException
           | Responded status_code _ parsed =>
               if status_code =? 200 then
                 match parsed with
                 | Some result => mret (Some result)
                 | None => raise ValueError
                 end
               else mret None
           end
         else mret None
     | None => mret None
     end)
    (fun _ => mret None).

Definition _create_fallback_intent (user_input user_id : string) : M json :=
  let '(workflow_type, function_name) := detect user_input in
  u1 ← uuid4 env;
  u2 ← uuid4 env;
  let intent_response :=
    JObj
      [("intent_id", JStr (str_uuid u1));
       ("user_id", JStr user_id);
       ("workflow_type", JStr workflow_type);
       ("confidence", JFloat (literal 75 100));
       ("parsed_intent", JObj
          [("topic", JStr user_input);
           ("title", JStr ("Content about: " ++ user_input));
           ("requirements", JList []);
           ("original_input", JStr user_input)]);
       ("functions", JList
          [JObj
             [("id", JStr (str_uuid u2));
              ("name", JStr function_name);
              ("description",
               JStr ("Generate " ++ replace_char "-" " " workflow_type ++
                     " content"));
              ("parameters", JObj
                 [("title", JStr ("Generated content: " ++ user_input));
                  ("topic", JStr user_input);
                  ("content_type", JStr (before_char "-" workflow_type))]);
              ("provider", JStr "fallback");
              ("estimated_duration", JInt 20);
              ("confidence_score", JFloat (literal 75 100))]]);
       ("real_ai_parsing", JBool false);
       ("fallback_used", JBool true);
       ("model_used", JStr "rule-based-fallback");
       ("timestamp", JStr now)] in
  mret intent_response.

(** The JSON object embedded in Gemini's text, or the stand-in of the
    [except (json.JSONDecodeError, ValueError)] branch. *)
Definition embedded_intent (text_content user_input : string) : json :=
  let stand_in :=
    JObj [("workflow_type", JStr "blog-post-generation");
          ("topic", JStr user_input);
          ("title", JStr ("Content about: " ++ user_input));
          ("confidence", JFloat (literal 8 10))] in
  let json_start := find "{" text_content in
  let json_end := rfind "}" text_content + 1 in
  if negb (json_start =? -1) && (json_end >? json_start) then
    match json_loads env (slice text_content json_start json_end) with
    | Some gemini_intent => gemini_intent
    | None => stand_in
    end
  else stand_in.

(** The [try] block of [_parse_gemini_response]; [None] when it falls
    through to the fallback at the end of the function. *)
Definition parsed_intent (gemini_response : json) (user_input user_id : string)
  : M (option json) :=
  candidates ← lift (jget_default "candidates" (JList []) gemini_response);
  if json_truthy candidates then
    c ← lift (first_item candidates);
    content ← lift (jget_default "content" (JObj []) c);
    parts ← lift (jget_default "parts" (JList []) content);
    if json_truthy parts then
      p ← lift (first_item parts);
      text_content ← lift (jget_default "text" (JStr "") p);
      match text_content with
      | JStr text_content =>
          let gemini_intent := embedded_intent text_content user_input in
          u1 ← uuid4 env;
          workflow_type ← lift (jget_default "workflow_type"
            (JStr "blog-post-generation") gemini_intent);
          confidence ← lift (jget_default "confidence"
            (JFloat (literal 8 10)) gemini_intent);
          topic ← lift (jget_default "topic" (JStr user_input) gemini_intent);
          title ← lift (jget_default "title"
            (JStr ("Content about: " ++ user_input)) gemini_intent);
          requirements ← lift (jget_default "requirements" (JList [])
            gemini_intent);
          u2 ← uuid4 env;
          function_title ← lift (jget_default "title"
            (JStr ("Blog post about: " ++ user_input)) gemini_intent);
          mret (Some (JObj
            [("intent_id", JStr (str_uuid u1));
             ("user_id", JStr user_id);
             ("workflow_type", workflow_type);
             ("confidence", confidence);
             ("parsed_intent", JObj
                [("topic", topic);
                 ("title", title);
                 ("requirements", requirements);
                 ("original_input", JStr user_input)]);
             ("functions", JList
                [JObj
                   [("id", JStr (str_uuid u2));
                    ("name", JStr "create_blog_post");
                    ("description", JStr "Generate blog post content");
                    ("parameters", JObj
                       [("title", function_title);
                        ("topic", topic);
                        ("content_type", JStr "blog_post");
                        ("target_length", JInt 800)]);
                    ("provider", JStr "demo-content-mcp");
                    ("estimated_duration", JInt 30);
                    ("confidence_score", confidence)]]);
             ("real_ai_parsing", JBool true);
             ("model_used", JStr "gemini-2.0-flash");
             ("timestamp", JStr now)]))
      | _ => raise (no_attribute text_content "find")
      end
    else mret None
  else mret None.

Definition _parse_gemini_response
    (gemini_response : json) (user_input user_id : string) : M json :=
  r ← try_except (parsed_intent gemini_response user_input user_id)
                 (fun _ => mret None);
  match r with
  | Some intent_response => mret intent_response
  | None => _create_fallback_intent user_input user_id
  end.

Definition _handle_intent_parsing (request_data : request) : M response :=
  try_except
    (let user_id := get request_data "user_id" "anonymous" in
     let user_input := user_input_of request_data in
     if negb (nonempty user_input) then
       _send_error_response 400 "Missing 'input' or 'text' field"
     else
       gemini_response ← _call_gemini_api user_input;
       match answered gemini_response with
       | Some gemini_response =>
           parsed_intent ← _parse_gemini_response gemini_response user_input user_id;
           _send_json_response parsed_intent 200
       | None =>
           fallback_intent ← _create_fallback_intent user_input user_id;
           _send_json_response fallback_intent 200
       end)
    (fun _ =>
       fallback_intent ← _create_fallback_intent
         (get request_data "input" "") (get request_data "user_id" "anonymous");
       _send_json_response fallback_intent 200).

Definition do_POST (path : string) (post_data : payload) : M response :=
  try_except
    (request_data ← lift (loads_request post_data);
     if String.eqb path "/v1/parse" then
       _handle_intent_parsing request_data
     else
       _send_error_response 404 "Endpoint not found")
    (fun e =>
       _send_error_response 500 ("Internal server error: " ++ str_exn e)).

Definition _handle_health : M response :=
  let health_data :=
    JObj [("status", JStr "healthy");
          ("service", JStr "simple-intent-parser-real");
          ("version", JStr "1.0.0");
          ("timestamp", JStr now);
          ("llm_status", JStr "connected");
          ("provider", JStr "gemini");
          ("model", JStr "gemini-2.0-flash")] in
  _send_json_response health_data 200.

Definition _handle_info : M response :=
  let info_data :=
    JObj [("service", JStr "Simple Real Intent Parser");
          ("version", JStr "1.0.0");
          ("description", JStr "Real intent parsing with Gemini API integration");
          ("endpoints", JList
             [JStr "GET /health - Service health check";
              JStr "POST /v1/parse - Parse user intent"]);
          ("provider", JStr "gemini");
          ("model", JStr "gemini-2.0-flash");
          ("real_ai_enabled", JBool true)] in
  _send_json_response info_data 200.

Definition do_GET (path : string) : M response :=
  if String.eqb path "/health" then _handle_health else _handle_info.

End Handlers.

End IntentParser.

(** * Vocabulary of the statements *)

Section Vocabulary.
Import Py Rt ContentService.

(** ** Words and mantissas *)




(** The number of binary digits of a mantissa. *)
Definition digits (m : positive) : Z := Z.pos (digits2_pos m).

(** A mantissa with nothing shifted out of it yet. *)
Definition exact (m : Z) : shr_record :=
  {| shr_m := m; shr_r := false; shr_s := false |}.

(** ** What a handler returns *)

(** The member [k] of the object a computation returns. *)
Definition returned_member {A} (k : string) (r : Py.result Rt.json * A)
  : option Rt.json :=
  match r with
  | (Py.Return j, _) => Rt.jget k j
  | (Py.Raise _, _) => None
  end.

(** What a computation returns, if it returns. *)
Definition returned {A B} (r : Py.result A * B) : option A :=
  match r with
  | (Py.Return a, _) => Some a
  | (Py.Raise _, _) => None
  end.

(** An envelope with status "completed". *)
Definition completed (body : json) : Prop :=
  jget "status" body = Some (JStr "completed").



(** A computation is quiet when it leaves the log of outbound calls as it
    found it. *)
Definition quiet {A} (m : M A) : Prop :=
  forall st, calls (snd (m st)) = calls st.

(** [erase ks j]: [j] without the members named in [ks], at any depth. *)
Fixpoint erase (ks : list string) (j : json) : json :=
  match j with
  | JList items => JList (map (erase ks) items)
  | JObj members =>
      JObj ((fix go (ms : list (string * json)) : list (string * json) :=
               match ms with
               | [] => []
               | (k, v) :: ms' =>
                   if existsb (String.eqb k) ks then go ms'
                   else (k, erase ks v) :: go ms'
               end) members)
  | _ => j
  end.

(** ** Requests and upstream answers *)

(** The request [r] with the text member [k] set to [v]. *)
Definition set_text (k v : string) (r : request) : request :=
  {| text := <[k := v]> (text r); ints := ints r |}.



(** [4.7 + k * 0.05] in binary64, for the six values of [k]. *)
Definition score (k : Z) : float :=
  fadd (literal 47 10) (fmul (float_of_Z k) (literal 5 100)).

(** ** Sample requests and environments *)

(** The request [{}]. *)
Definition empty_request : request := {| text := ∅; ints := ∅ |}.


Definition parse_request : request :=
  {| text := {[ "input" := "generate an image of a cat" ]}; ints := ∅ |}.

(** The state of a handler that has just been created. *)
Definition st0 : state := {| calls := []; drawn := 0 |}.


(** A process with no credential in its environment. *)
Definition env_without_key : Env :=
  {| GEMINI_API_KEY := None;
     requests_post := fun _ => Responded 200 "{}" (Some (JObj []));
     uuid4_hex := fun _ => "3f2a9c1e5b7d4a60812c4e6f8a0b2d4c";
     hash := fun _ => 0;
     json_loads := fun _ => None;
     utcnow_isoformat := "2025-03-01T09:30:00";
     gmtime_strftime := "2025-03-01T09:30:00Z";
     time_time := 1740821400;
     elapsed_ms := 2 |}.

(** A process whose uuid generator yields four distinct values in turn. *)
Definition env_uuid_sequence : Env :=
  {| GEMINI_API_KEY := None;
     requests_post := fun _ => Responded 200 "{}" (Some (JObj []));
     uuid4_hex := fun n =>
       nth n ["9b1d6e0c2a4f48e7b3c5d7e9f1a3b5c7";
              "0c7e5a3f9d1b4c2e8f6a4b2d0e8c6a41";
              "5e8f2b6d0a3c47f1a9d7c5b3e1f90a2b";
              "d4a1c8e27b3f4e5a9c0b6d2f8e1a7c35"]
             "00000000000040008000000000000000";
     hash := fun _ => 0;
     json_loads := fun _ => None;
     utcnow_isoformat := "2025-03-01T09:30:00";
     gmtime_strftime := "2025-03-01T09:30:00Z";
     time_time := 1740821400;
     elapsed_ms := 2 |}.

(** An upstream that answers 429 to every call, with a credential set. *)
Definition env_quota : Env :=
  {| GEMINI_API_KEY := Some "test-key";
     requests_post := fun _ => Responded 429 "quota exceeded" None;
     uuid4_hex := fun _ => "3f2a9c1e5b7d4a60812c4e6f8a0b2d4c";
     hash := fun _ => 0;
     json_loads := fun _ => None;
     utcnow_isoformat := "2025-03-01T09:30:00";
     gmtime_strftime := "2025-03-01T09:30:00Z";
     time_time := 1740821400;
     elapsed_ms := 2 |}.



(** The first call of the fallback intent, and the second call made right
    after it in the same process, at the same clock reading. *)
Definition first_call : result json * state :=
  IntentParser._create_fallback_intent env_uuid_sequence
    "optimize my supply chain" "user-1" st0.

Definition second_call : result json * state :=
  IntentParser._create_fallback_intent env_uuid_sequence
    "optimize my supply chain" "user-1" (snd first_call).

(** A run of the social handler, and the envelope it returns. *)
Definition social_run : result json * state :=
  generate_social_content env_without_key empty_request st0.

Definition social_body : json :=
  match social_run with
  | (Return body, _) => body
  | (Raise _, _) => JNull
  end.

(** ** Further requests, answers and environments *)

(** The request [r] with the integer member [k] set to [n]. *)
Definition set_int (k : string) (n : Z) (r : request) : request :=
  {| text := text r; ints := <[k := n]> (ints r) |}.


(** The character [c] occurs in [s]. *)
Fixpoint occurs (c : ascii) (s : string) : bool :=
  match s with
  | EmptyString => false
  | String a s' => Ascii.eqb a c || occurs c s'
  end.

(** The first item of a JSON list. *)
Definition jfirst (j : json) : option json :=
  match j with
  | JList (x :: _) => Some x
  | _ => None
  end.

(** A Gemini answer with one candidate, holding the text [t]. *)
Definition gemini_answer (t : string) : json :=
  JObj [("candidates",
         JList [JObj [("content",
                       JObj [("parts",
                              JList [JObj [("text", JStr t)]])])]])].

(** A 200 answer of the upstream that the blog handler cannot use: no JSON
    body, or a body from which no candidate text comes out. *)
Definition unusable (parsed : option json) : Prop :=
  match parsed with
  | None => True
  | Some result =>
      forall content,
        ContentService.candidate_text result <> Some (Return content)
  end.

(** A process with the given credential and the given answer of the peer
    to every call. *)
Definition env_with (key : option string) (answer : http_outcome) : Env :=
  {| GEMINI_API_KEY := key;
     requests_post := fun _ => answer;
     uuid4_hex := fun n =>
       nth n ["9b1d6e0c2a4f48e7b3c5d7e9f1a3b5c7";
              "0c7e5a3f9d1b4c2e8f6a4b2d0e8c6a41";
              "5e8f2b6d0a3c47f1a9d7c5b3e1f90a2b"]
             "00000000000040008000000000000000";
     hash := fun s => Z.of_nat (String.length s);
     json_loads := fun _ => None;
     utcnow_isoformat := "2025-03-01T09:30:00";
     gmtime_strftime := "2025-03-01T09:30:00Z";
     time_time := 1740821400;
     elapsed_ms := 2 |}.

(** A process with a credential whose [json.loads] reads the text [s] as
    [j] and rejects every other text; the upstream answers 200 with one
    candidate holding [t]. *)
Definition env_reading (s : string) (j : json) (t : string) : Env :=
  {| GEMINI_API_KEY := Some "test-key";
     requests_post := fun _ => Responded 200 "..." (Some (gemini_answer t));
     uuid4_hex := fun _ => "3f2a9c1e5b7d4a60812c4e6f8a0b2d4c";
     hash := fun _ => 0;
     json_loads := fun x => if String.eqb x s then Some j else None;
     utcnow_isoformat := "2025-03-01T09:30:00";
     gmtime_strftime := "2025-03-01T09:30:00Z";
     time_time := 1740821400;
     elapsed_ms := 2 |}.

(** ** Answers of the peers *)


(** The member [k] of an answer with members [ms], or the default [d]. *)
Definition member_or (k : string) (d : json) (ms : list (string * json))
  : json :=
  match assoc k ms with
  | Some v => v
  | None => d
  end.

(** [f] applied to an optional JSON value. *)
Definition jthen (o : option json) (f : json -> option json) : option json :=
  match o with
  | Some j => f j
  | None => None
  end.

(** What a probe of the content peer finds after the calls [log]: whether
    it answers 200. *)
Definition peer_up (requests_get : list outbound -> string -> get_outcome)
    (log : list outbound) : bool :=
  match requests_get log "http://localhost:8804/health" with
  | GetResponded status_code => status_code =? 200
  | GetFailed => false
  end.

(** A score between 4 and 5. *)
Definition in_range (f : float) : Prop := (4 <= Qvalue f <= 5)%Q.

(** ** Intents *)

(** The intent that stands in for Gemini's when its text holds no JSON
    that [json.loads] accepts. *)
Definition stand_in_intent (user_input : string) : json :=
  JObj [("workflow_type", JStr "blog-post-generation");
        ("topic", JStr user_input);
        ("title", JStr ("Content about: " ++ user_input));
        ("confidence", JFloat (literal 8 10))].


(** The first function of an intent. *)
Definition function0 (body : json) : option json :=
  jthen (jget "functions" body) jfirst.

(** What every intent keeps, whichever way it was made: the caller's user
    and input are echoed, the function carries the confidence and the
    topic of the intent. *)
Definition intent_invariants (user_input user_id : string) (body : json)
  : Prop :=
  jget "user_id" body = Some (JStr user_id) /\
  jpath ["parsed_intent"; "original_input"] body = Some (JStr user_input) /\
  (exists confidence,
     jget "confidence" body = Some confidence /\
     jthen (function0 body) (jget "confidence_score") = Some confidence) /\
  (exists topic,
     jpath ["parsed_intent"; "topic"] body = Some topic /\
     jthen (function0 body) (jpath ["parameters"; "topic"]) = Some topic).

(** An intent made from Gemini's answer. *)
Definition ai_intent (body : json) : Prop :=
  jget "real_ai_parsing" body = Some (JBool true) /\
  jget "fallback_used" body = None /\
  jget "model_used" body = Some (JStr "gemini-2.0-flash") /\
  jthen (function0 body) (jget "name") = Some (JStr "create_blog_post") /\
  jthen (function0 body) (jget "provider") = Some (JStr "demo-content-mcp") /\
  jthen (function0 body) (jpath ["parameters"; "content_type"])
  = Some (JStr "blog_post") /\
  jthen (function0 body) (jpath ["parameters"; "target_length"])
  = Some (JInt 800).

(** An intent made by the keyword rules. *)
Definition rule_based_intent (user_input : string) (body : json) : Prop :=
  jget "real_ai_parsing" body = Some (JBool false) /\
  jget "fallback_used" body = Some (JBool true) /\
  jget "model_used" body = Some (JStr "rule-based-fallback") /\
  jget "workflow_type" body
  = Some (JStr (fst (IntentParser.detect user_input))) /\
  jget "confidence" body = Some (JFloat (literal 75 100)) /\
  jthen (function0 body) (jget "name")
  = Some (JStr (snd (IntentParser.detect user_input))) /\
  jthen (function0 body) (jget "provider") = Some (JStr "fallback").

(** The upstream of the intent parser gave nothing to parse: the transport
    failed, the status is not 200, the body is not JSON, or it is a JSON
    value that counts as false. *)
Definition nothing_to_parse (o : http_outcome) : Prop :=
  match o with
  | ConnectionFailed => True
  | Responded status_code _ parsed =>
      status_code <> 200 \/
      match parsed with
      | None => True
      | Some j => json_truthy j = false
      end
  end.

End Vocabulary.

(** * Properties *)

(** ** Words of a text *)

Module StrFacts.
Import Py.

#[local] Arguments String.append !s1 s2 : simpl nomatch.


Lemma append_assoc (a b c : string) : (a ++ b) ++ c = a ++ b ++ c.
Proof. induction a as [|x a IH]; simpl; [reflexivity | now rewrite IH]. Qed.













(** *** Words that survive concatenation *)





(** *** Lower case and containment *)

Lemma lower_app (a b : string) : lower (a ++ b) = lower a ++ lower b.
Proof. induction a as [|c a IH]; simpl; [reflexivity | now rewrite IH]. Qed.

Lemma startswith_app (p s : string) : startswith p (p ++ s) = true.
Proof.
  induction p as [|c p IH]; simpl; [reflexivity|].
  now rewrite Ascii.eqb_refl, IH.
Qed.

Lemma startswith_inv (p s : string) :
  startswith p s = true -> exists t, s = p ++ t.
Proof.
  revert s. induction p as [|c p IH]; intros s H; simpl in *.
  - now exists s.
  - destruct s as [|d s]; [discriminate|].
    apply andb_true_iff in H as [Hc H]. apply Ascii.eqb_eq in Hc as ->.
    destruct (IH s H) as [t ->]. now exists t.
Qed.

(** [contains] is substring containment. *)
Lemma contains_spec (sub s : string) :
  contains sub s = true <-> exists a b, s = a ++ sub ++ b.
Proof.
  split.
  - induction s as [|c s IH]; simpl; intros H.
    + rewrite orb_false_r in H. apply startswith_inv in H as [t ->].
      now exists EmptyString, t.
    + apply orb_true_iff in H as [H|H].
      * apply startswith_inv in H as [t ->]. now exists EmptyString, t.
      * destruct (IH H) as (a & b & ->). now exists (String c a), b.
  - intros (a & b & ->). induction a as [|c a IH].
    + change (EmptyString ++ sub ++ b) with (sub ++ b).
      destruct (sub ++ b) eqn:E; simpl; rewrite <- E, startswith_app;
        reflexivity.
    + change (String c a ++ sub ++ b) with (String c (a ++ sub ++ b)).
      simpl. now rewrite IH, orb_true_r.
Qed.

End StrFacts.

(** ** Binary64 rounding

    What [SpecFloat]'s rounding computes on the mantissas that occur in
    the services: integers converted to floats, and their product with
    the literal 0.8. *)

Module FloatFacts.
Import Py.

Lemma pow2_succ (a : Z) : 0 <= a -> 2 ^ (a + 1) = 2 * 2 ^ a.
Proof. intros Ha. now rewrite Z.pow_add_r, Z.mul_comm by lia. Qed.

Lemma pow2_pos (a : Z) : 0 <= a -> 0 < 2 ^ a.
Proof. intros Ha. apply Z.pow_pos_nonneg; lia. Qed.

Lemma digits_bounds (m : positive) :
  2 ^ (digits m - 1) <= Z.pos m < 2 ^ digits m.
Proof.
  unfold digits. induction m as [m IH | m IH |]; cbn [digits2_pos].
  - rewrite Pos2Z.inj_succ, (Pos2Z.inj_xI m). unfold Z.succ.
    rewrite (pow2_succ (Z.pos (digits2_pos m))) by lia.
    replace (Z.pos (digits2_pos m) + 1 - 1)
      with (Z.pos (digits2_pos m) - 1 + 1) by lia.
    rewrite (pow2_succ (Z.pos (digits2_pos m) - 1)) by lia. lia.
  - rewrite Pos2Z.inj_succ, (Pos2Z.inj_xO m). unfold Z.succ.
    rewrite (pow2_succ (Z.pos (digits2_pos m))) by lia.
    replace (Z.pos (digits2_pos m) + 1 - 1)
      with (Z.pos (digits2_pos m) - 1 + 1) by lia.
    rewrite (pow2_succ (Z.pos (digits2_pos m) - 1)) by lia. lia.
  - simpl. lia.
Qed.

Lemma digits_unique (m : positive) (d : Z) :
  2 ^ (d - 1) <= Z.pos m < 2 ^ d -> digits m = d.
Proof.
  intros [Hlo Hhi]. pose proof (digits_bounds m) as [Blo Bhi].
  assert (0 < digits m) by (unfold digits; lia).
  destruct (Z.lt_trichotomy (digits m) d) as [Hlt | [Heq | Hgt]];
    [exfalso | assumption | exfalso].
  - assert (2 ^ digits m <= 2 ^ (d - 1)) by (apply Z.pow_le_mono_r; lia). lia.
  - assert (0 <= d \/ d < 0) as [Hd | Hd] by lia.
    + assert (2 ^ d <= 2 ^ (digits m - 1)) by (apply Z.pow_le_mono_r; lia). lia.
    + rewrite (Z.pow_neg_r 2 d) in Hhi by lia. lia.
Qed.

Lemma shr_1_spec (mrs : shr_record) :
  0 <= shr_m mrs ->
  shr_m (shr_1 mrs) = shr_m mrs / 2 /\ shr_r (shr_1 mrs) = Z.odd (shr_m mrs).
Proof.
  destruct mrs as [m r s]; simpl. intros Hm.
  rewrite <- Z.div2_div.
  destruct m as [|[p|p|]|p]; simpl; try lia; now split.
Qed.

Lemma iter_shr_1 (p : positive) (mrs : shr_record) :
  0 <= shr_m mrs ->
  shr_m (SpecFloat.iter_pos shr_1 p mrs) = shr_m mrs / 2 ^ Z.pos p /\
  shr_r (SpecFloat.iter_pos shr_1 p mrs) = Z.odd (shr_m mrs / 2 ^ (Z.pos p - 1)).
Proof.
  revert mrs. induction p as [p IH | p IH |]; intros mrs Hm; cbn [SpecFloat.iter_pos].
  - destruct (shr_1_spec mrs Hm) as [H1 _].
    assert (H1' : 0 <= shr_m (shr_1 mrs)) by (rewrite H1; apply Z.div_pos; lia).
    destruct (IH _ H1') as [H2 _].
    assert (H2' : 0 <= shr_m (SpecFloat.iter_pos shr_1 p (shr_1 mrs))).
    { rewrite H2. apply Z.div_pos; [lia | apply Z.pow_pos_nonneg; lia]. }
    destruct (IH _ H2') as [H3 H4]. rewrite H3, H4, H2, H1.
    rewrite (Pos2Z.inj_xI p).
    assert (0 < 2 ^ Z.pos p) by (apply Z.pow_pos_nonneg; lia).
    assert (0 < 2 ^ (Z.pos p - 1)) by (apply Z.pow_pos_nonneg; lia).
    rewrite !Z.div_div by lia. split; do 2 f_equal.
    + replace (2 * Z.pos p + 1) with (1 + Z.pos p + Z.pos p) by lia.
      rewrite !Z.pow_add_r by lia. lia.
    + replace (2 * Z.pos p + 1 - 1) with (1 + Z.pos p + (Z.pos p - 1)) by lia.
      rewrite !Z.pow_add_r by lia. lia.
  - destruct (IH _ Hm) as [H2 _].
    assert (H2' : 0 <= shr_m (SpecFloat.iter_pos shr_1 p mrs)).
    { rewrite H2. apply Z.div_pos; [lia | apply Z.pow_pos_nonneg; lia]. }
    destruct (IH _ H2') as [H3 H4]. rewrite H3, H4, H2.
    rewrite (Pos2Z.inj_xO p).
    assert (0 < 2 ^ Z.pos p) by (apply Z.pow_pos_nonneg; lia).
    assert (0 < 2 ^ (Z.pos p - 1)) by (apply Z.pow_pos_nonneg; lia).
    rewrite !Z.div_div by lia. split; do 2 f_equal.
    + replace (2 * Z.pos p) with (Z.pos p + Z.pos p) by lia.
      rewrite !Z.pow_add_r by lia. lia.
    + replace (2 * Z.pos p - 1) with (Z.pos p + (Z.pos p - 1)) by lia.
      rewrite !Z.pow_add_r by lia. lia.
  - destruct (shr_1_spec mrs Hm) as [H1 H2]. rewrite H1, H2. simpl.
    now rewrite Z.div_1_r.
Qed.

Lemma shr_fexp_keep (m : positive) (e : Z) :
  digits m <= 53 -> -1074 <= e ->
  shr_fexp 53 1024 (Z.pos m) e loc_Exact = (exact (Z.pos m), e).
Proof.
  intros Hd He. unfold shr_fexp, shr, fexp, emin. cbn [Zdigits2 shr_record_of_loc].
  fold (digits m).
  destruct (Z.max (digits m + e - 53) (3 - 1024 - 53) - e) eqn:E;
    try reflexivity. lia.
Qed.

Lemma shr_fexp_shift (m : positive) (e : Z) :
  53 < digits m -> -1074 <= digits m + e - 53 ->
  shr_fexp 53 1024 (Z.pos m) e loc_Exact =
    (SpecFloat.iter_pos shr_1 (Z.to_pos (digits m - 53)) (exact (Z.pos m)),
     e + (digits m - 53)).
Proof.
  intros Hd He. unfold shr_fexp, shr, fexp, emin. cbn [Zdigits2 shr_record_of_loc].
  fold (digits m).
  replace (Z.max (digits m + e - 53) (3 - 1024 - 53) - e)
    with (Z.pos (Z.to_pos (digits m - 53))) by (rewrite Z2Pos.id; lia).
  rewrite Z2Pos.id by lia. reflexivity.
Qed.

(** A mantissa that fits is kept as it is. *)
Lemma round_keep (sx : bool) (m : positive) (e : Z) :
  digits m <= 53 -> -1074 <= e ->
  binary_round_aux 53 1024 sx (Z.pos m) e loc_Exact =
    if e <=? 971 then S754_finite sx m e else S754_infinity sx.
Proof.
  intros Hd He. unfold binary_round_aux.
  rewrite (shr_fexp_keep m e Hd He). cbn [exact shr_m loc_of_shr_record round_nearest_even].
  rewrite (shr_fexp_keep m e Hd He). reflexivity.
Qed.

Lemma round_up_only_if (mrs : shr_record) :
  let q' := round_nearest_even (shr_m mrs) (loc_of_shr_record mrs) in
  q' = shr_m mrs \/ (q' = shr_m mrs + 1 /\ shr_r mrs = true).
Proof.
  destruct mrs as [m [|] [|]]; simpl; auto; destruct (Z.even m); auto.
Qed.

(** An odd quotient by [2^(n-1)] puts the remainder by [2^n] in the upper
    half. *)
Lemma odd_upper_half (M n : Z) :
  0 <= M -> 0 < n -> Z.odd (M / 2 ^ (n - 1)) = true ->
  2 ^ n <= 2 * (M mod 2 ^ n).
Proof.
  intros HM Hn Hodd. apply Z.odd_spec in Hodd as [b Hb].
  pose proof (pow2_pos (n - 1) ltac:(lia)) as Hh.
  replace n with (n - 1 + 1) at 1 2 by lia. rewrite (pow2_succ (n - 1)) by lia.
  pose proof (Z.div_mod M (2 ^ (n - 1)) ltac:(lia)) as HMdiv.
  pose proof (Z.mod_pos_bound M (2 ^ (n - 1)) Hh) as Hr.
  rewrite Hb in HMdiv.
  assert (Hmod : M mod (2 * 2 ^ (n - 1)) = 2 ^ (n - 1) + M mod 2 ^ (n - 1)).
  { symmetry. apply (Z.mod_unique _ _ b); [left; lia | lia]. }
  rewrite Hmod. lia.
Qed.

(** Rounding a mantissa of more than 53 bits: the quotient, or its
    successor when the remainder is at least one half; a carry into the
    54th bit is shifted once more. *)
Lemma round_shift (sx : bool) (M : positive) (ex : Z) :
  53 < digits M -> -1074 <= digits M + ex - 53 ->
  let n := digits M - 53 in
  let q := Z.pos M / 2 ^ n in
  exists q',
    (q' = q \/ (q' = q + 1 /\ 2 ^ n <= 2 * (Z.pos M mod 2 ^ n))) /\
    2 ^ 52 <= q < 2 ^ 53 /\
    binary_round_aux 53 1024 sx (Z.pos M) ex loc_Exact =
      if q' <? 2 ^ 53 then
        if ex + n <=? 971 then S754_finite sx (Z.to_pos q') (ex + n)
        else S754_infinity sx
      else
        if ex + n + 1 <=? 971 then S754_finite sx (Z.to_pos (2 ^ 52)) (ex + n + 1)
        else S754_infinity sx.
Proof.
  intros Hd He n q.
  pose proof (digits_bounds M) as [Blo Bhi].
  pose proof (pow2_pos n ltac:(lia)) as Hn.
  assert (Hq : 2 ^ 52 <= q < 2 ^ 53).
  { subst q. replace (digits M - 1) with (52 + n) in Blo by lia.
    replace (digits M) with (53 + n) in Bhi by lia.
    rewrite Z.pow_add_r in Blo, Bhi by lia. split.
    - apply Z.div_le_lower_bound; lia.
    - apply Z.div_lt_upper_bound; lia. }
  unfold binary_round_aux. rewrite (shr_fexp_shift M ex Hd He). fold n.
  destruct (iter_shr_1 (Z.to_pos n) (exact (Z.pos M)) ltac:(simpl; lia))
    as [Hm Hr].
  rewrite Z2Pos.id in Hm, Hr by lia. cbn [exact shr_m] in Hm, Hr. fold q in Hm.
  set (mrs := SpecFloat.iter_pos shr_1 (Z.to_pos n) (exact (Z.pos M))) in *.
  pose proof (round_up_only_if mrs) as Hup. cbv zeta in Hup.
  set (q' := round_nearest_even (shr_m mrs) (loc_of_shr_record mrs)) in *.
  rewrite Hm in Hup. exists q'. split; [|split; [exact Hq|]].
  - destruct Hup as [Hup | [Hup Hrt]]; [now left | right; split; [exact Hup|]].
    rewrite Hrt in Hr. apply odd_upper_half; [lia | lia | now symmetry].
  - assert (Hq' : 2 ^ 52 <= q' <= 2 ^ 53) by lia.
    destruct (q' <? 2 ^ 53) eqn:Hlt.
    + apply Z.ltb_lt in Hlt.
      destruct q' as [|p'|p'] eqn:Eq'; try lia.
      assert (Hdp : digits p' = 53) by (apply digits_unique; simpl; lia).
      rewrite (shr_fexp_keep p' (ex + n)) by lia.
      cbn [exact shr_m]. reflexivity.
    + apply Z.ltb_ge in Hlt. assert (Eq' : q' = 2 ^ 53) by lia.
      rewrite Eq'. change (2 ^ 53) with (Z.pos (2 ^ 53)).
      rewrite (shr_fexp_shift (2 ^ 53) (ex + n)) by (vm_compute digits; lia).
      change (digits (2 ^ 53) - 53) with 1.
      cbn. reflexivity.
Qed.

Lemma iter_xO (w d : positive) :
  Z.pos (Pos.iter xO w d) = Z.pos w * 2 ^ Z.pos d.
Proof.
  induction d as [|d IH] using Pos.peano_ind.
  - simpl. lia.
  - rewrite Pos.iter_succ, Pos2Z.inj_xO, IH, Pos2Z.inj_succ.
    unfold Z.succ. rewrite pow2_succ by lia. lia.
Qed.

(** An integer of at most 53 bits converts exactly, to a mantissa
    normalised to 53 bits. *)
Lemma float_of_Z_small (w : positive) :
  digits w <= 53 ->
  exists mz,
    Z.pos mz = Z.pos w * 2 ^ (53 - digits w) /\
    digits mz = 53 /\
    float_of_Z (Z.pos w) = S754_finite false mz (digits w - 53).
Proof.
  intros Hd. assert (0 < digits w) by (unfold digits; lia).
  unfold float_of_Z, binary_normalize, binary_round, prec, emax, shl_align,
    fexp, emin. fold (digits w).
  replace (Z.max (digits w + 0 - 53) (3 - 1024 - 53)) with (digits w - 53) by lia.
  destruct (digits w - 53 - 0) as [|d|d] eqn:E; [|exfalso; lia|].
  - assert (Hw : digits w = 53) by lia.
    exists w. rewrite round_keep by lia. rewrite Hw. simpl.
    repeat split; lia.
  - assert (Hmz : Z.pos (Pos.iter xO w d) = Z.pos w * 2 ^ (53 - digits w)).
    { rewrite iter_xO. f_equal. f_equal. lia. }
    assert (Hdz : digits (Pos.iter xO w d) = 53).
    { apply digits_unique. rewrite Hmz.
      pose proof (digits_bounds w) as [Blo Bhi].
      pose proof (pow2_pos (53 - digits w) ltac:(lia)).
      assert (E1 : 2 ^ (53 - 1) = 2 ^ (digits w - 1) * 2 ^ (53 - digits w)).
      { rewrite <- Z.pow_add_r by lia. f_equal. lia. }
      assert (E2 : 2 ^ 53 = 2 ^ digits w * 2 ^ (53 - digits w)).
      { rewrite <- Z.pow_add_r by lia. f_equal. lia. }
      rewrite E1, E2. nia. }
    exists (Pos.iter xO w d). split; [exact Hmz | split; [exact Hdz|]].
    rewrite round_keep by lia.
    destruct (digits w - 53 <=? 971) eqn:Hle; [reflexivity | lia].
Qed.

Lemma digits_le (w : positive) (b : Z) :
  0 <= b -> Z.pos w < 2 ^ b -> digits w <= b.
Proof.
  intros Hb Hw. pose proof (digits_bounds w) as [Blo _].
  assert (0 < digits w) by (unfold digits; lia).
  destruct (Z_le_gt_dec (digits w) b) as [|Hgt]; [assumption|exfalso].
  assert (2 ^ b <= 2 ^ (digits w - 1)) by (apply Z.pow_le_mono_r; lia). lia.
Qed.

(** [float(z)] succeeds for every natural number below [2^1023]. *)
Lemma float_of_int_returns (z : Z) :
  0 <= z < 2 ^ 1023 -> exists f, float_of_int z = Return f.
Proof.
  intros [Hlo Hhi]. unfold float_of_int. destruct z as [|w|w]; [|clear Hlo|lia].
  - now exists (S754_zero false).
  - pose proof (digits_le w 1023 ltac:(lia) Hhi) as Hd.
    destruct (Z_le_gt_dec (digits w) 53) as [Hs|Hb].
    + destruct (float_of_Z_small w Hs) as (mz & _ & _ & ->). eauto.
    + unfold float_of_Z, binary_normalize, binary_round, prec, emax, shl_align,
        fexp, emin. fold (digits w).
      replace (Z.max (digits w + 0 - 53) (3 - 1024 - 53) - 0)
        with (Z.pos (Z.to_pos (digits w - 53))) by (rewrite Z2Pos.id; lia).
      destruct (round_shift false w 0 ltac:(lia) ltac:(lia))
        as (q' & _ & _ & ->).
      destruct (q' <? 2 ^ 53).
      * destruct (0 + (digits w - 53) <=? 971) eqn:Hle; [eauto | lia].
      * destruct (0 + (digits w - 53) + 1 <=? 971) eqn:Hle; [eauto | lia].
Qed.











End FloatFacts.

(** ** Running a handler *)

Ltac run :=
  cbv [mbind mret Rt.M_bind Rt.M_ret Rt.bind Rt.ret Rt.lift Rt.try_except
       Rt.uuid4 Rt.post Rt.raise].

(** ** Request normalisation in the content service *)

Section Normalisation.
Import Py Rt ContentService.




End Normalisation.

(** ** The rule-based intent classifier *)

Section Classifier.
Import Py Rt IntentParser StrFacts.

Lemma any_true_intro {A} (p : A -> bool) (xs : list A) (x : A) :
  In x xs -> p x = true -> any p xs = true.
Proof. intros Hin Hp. apply existsb_exists. now exists x. Qed.

Lemma any_false_intro {A} (p : A -> bool) (xs : list A) :
  (forall x, In x xs -> p x = false) -> any p xs = false.
Proof.
  intros H. unfold any. destruct (existsb p xs) eqn:E; [|reflexivity].
  apply existsb_exists in E as (x & Hin & Hp). rewrite (H x Hin) in Hp.
  discriminate.
Qed.

Lemma fallback_intent_shape env (user_input user_id : string) st :
  returned_member "workflow_type"
    (_create_fallback_intent env user_input user_id st)
  = Some (JStr (fst (detect user_input))) /\
  returned_member "confidence"
    (_create_fallback_intent env user_input user_id st)
  = Some (JFloat (literal 75 100)).
Proof.
  unfold _create_fallback_intent. destruct (detect user_input) as [w f].
  run. simpl. now split.
Qed.

(** C4. The fallback classifier: the three inputs of the specification
    get the workflow types blog-post-generation, image-generation and
    content-generation, and every result carries the confidence 0.75. *)
Theorem fallback_classifier_examples env (user_id : string) st :
  returned_member "workflow_type"
    (_create_fallback_intent env "please write a blog about kubernetes"
       user_id st) = Some (JStr "blog-post-generation") /\
  returned_member "workflow_type"
    (_create_fallback_intent env "generate an image of a cat" user_id st)
    = Some (JStr "image-generation") /\
  returned_member "workflow_type"
    (_create_fallback_intent env "optimize my supply chain" user_id st)
    = Some (JStr "content-generation") /\
  (forall user_input,
     returned_member "confidence"
       (_create_fallback_intent env user_input user_id st)
     = Some (JFloat (literal 75 100))) /\
  (Qvalue (literal 75 100) == 75 # 100)%Q.
Proof.
  repeat split;
    try (rewrite (proj1 (fallback_intent_shape _ _ _ _)); reflexivity).
  intros user_input. apply fallback_intent_shape.
Qed.

Lemma lower_blog_words (kw : string) : In kw blog_words -> lower kw = kw.
Proof.
  intros H. repeat (destruct H as [<-|H]; [reflexivity|]). destruct H.
Qed.

(** C10. Keywords are looked for as substrings of the lowercased input,
    the blog list first: an input in which a blog keyword occurs anywhere
    (inside a longer word, in any letter case of the input, next to image
    keywords) is a blog-post-generation; an input with no blog keyword in
    which an image keyword occurs anywhere is an image-generation. *)
Theorem blog_keywords_first :
  (forall env user_input user_id st,
     returned_member "workflow_type"
       (_create_fallback_intent env user_input user_id st)
     = Some (JStr (fst (detect user_input)))) /\
  (forall user_input kw,
     In kw blog_words -> contains kw (lower user_input) = true ->
     detect user_input = ("blog-post-generation", "create_blog_post")) /\
  (forall kw a b,
     In kw blog_words ->
     detect (a ++ kw ++ b) = ("blog-post-generation", "create_blog_post")) /\
  (forall user_input kw,
     In kw image_words -> contains kw (lower user_input) = true ->
     (forall kw', In kw' blog_words ->
                  contains kw' (lower user_input) = false) ->
     detect user_input = ("image-generation", "create_image")) /\
  detect "Write a caption for this image"
    = ("blog-post-generation", "create_blog_post") /\
  detect "typewriter repair" = ("blog-post-generation", "create_blog_post") /\
  detect "mountain imagery" = ("image-generation", "create_image").
Proof.
  assert (Hblog : forall user_input kw,
     In kw blog_words -> contains kw (lower user_input) = true ->
     detect user_input = ("blog-post-generation", "create_blog_post")).
  { intros user_input kw Hin Hc. unfold detect.
    now rewrite (any_true_intro _ _ kw Hin Hc). }
  split; [intros; apply fallback_intent_shape|].
  split; [exact Hblog|]. split; [|split; [|repeat split; reflexivity]].
  - intros kw a b Hin. apply (Hblog _ kw Hin).
    apply contains_spec. exists (lower a), (lower b).
    now rewrite !lower_app, (lower_blog_words kw Hin).
  - intros user_input kw Hin Hc Hno. unfold detect.
    rewrite (any_false_intro _ _ Hno).
    now rewrite (any_true_intro _ _ kw Hin Hc).
Qed.

Lemma blog_keywords_first_witness :
  detect ("Please re" ++ "write" ++ " the image captions")
  = ("blog-post-generation", "create_blog_post") /\
  detect "A PHOTOGRAPH of the harbour" = ("image-generation", "create_image").
Proof.
  split.
  - apply (proj1 (proj2 (proj2 blog_keywords_first)) "write").
    right; right; right; left; reflexivity.
  - apply (proj1 (proj2 (proj2 (proj2 blog_keywords_first)))
             "A PHOTOGRAPH of the harbour" "photo").
    + right; right; left; reflexivity.
    + reflexivity.
    + intros kw' Hin.
      repeat (destruct Hin as [<- | Hin]; [reflexivity|]). destruct Hin.
Defined.

End Classifier.

(** ** The fallback text of the content service *)

Section FallbackContent.
Import Py Rt ContentService StrFacts FloatFacts.





(** The fallback text is produced for every target below [2^1023]. *)
Lemma adjust_returns (tmpl add : string) (wc : Z) :
  wc < 2 ^ 1023 -> exists c, adjust_length tmpl add wc = Return c.
Proof.
  intros Hhi. unfold adjust_length.
  destruct (Z.of_nat (length (split tmpl)) >? wc) eqn:E; [eauto|].
  unfold int_mul_float.
  assert (Hlo : 0 <= wc).
  { pose proof (Nat2Z.is_nonneg (length (split tmpl))). clear Hhi. lia. }
  destruct (float_of_int_returns wc (conj Hlo Hhi)) as [f ->].
  cbn [rbind]. destruct (int_lt_float _ _); eauto.
Qed.





End FallbackContent.

(** ** Handlers that stay off the network *)

Section Quiet.
Import Py Rt.

Lemma quiet_ret {A} (a : A) : quiet (mret a).
Proof. intros st. reflexivity. Qed.

Lemma quiet_raise {A} (e : exn) : quiet (raise (A := A) e).
Proof. intros st. reflexivity. Qed.

Lemma quiet_lift {A} (r : result A) : quiet (lift r).
Proof. intros st. reflexivity. Qed.

Lemma quiet_uuid4 env : quiet (uuid4 env).
Proof. intros st. reflexivity. Qed.

Lemma quiet_bind {A B} (m : M A) (k : A -> M B) :
  quiet m -> (forall a, quiet (k a)) -> quiet (m ≫= k).
Proof.
  intros Hm Hk st. run. specialize (Hm st).
  destruct (m st) as [[a|e] st']; simpl in *; [|assumption].
  now rewrite Hk.
Qed.

Lemma quiet_try {A} (m : M A) (h : exn -> M A) :
  quiet m -> (forall e, quiet (h e)) -> quiet (try_except m h).
Proof.
  intros Hm Hh st. run. specialize (Hm st).
  destruct (m st) as [[a|e] st']; simpl in *; [assumption|].
  now rewrite Hh.
Qed.

End Quiet.

Create HintDb quiet.
#[export] Hint Resolve quiet_ret quiet_raise quiet_lift quiet_uuid4 : quiet.

Ltac quiet_step :=
  first
    [ solve [auto with quiet]
    | apply quiet_bind; [|intros ?]
    | apply quiet_try; [|intros ?]
    | match goal with
      | |- quiet (if ?b then _ else _) => destruct b
      | |- quiet (match ?x with _ => _ end) => destruct x
      | |- quiet (let (_, _) := ?x in _) => destruct x
      end ].

Ltac quiet_auto := repeat quiet_step.

Section MissingCredentials.
Import Py Rt.

Lemma content_quiet_without_key env (post_data : payload) :
  truthy (GEMINI_API_KEY env) = false ->
  quiet (ContentService.do_POST env post_data).
Proof.
  intros Hkey. unfold ContentService.do_POST,
    ContentService.generate_blog_content,
    ContentService.generate_social_content,
    ContentService.generate_generic_content.
  rewrite Hkey. quiet_auto.
Qed.

Lemma intent_api_without_key env (user_input : string) st :
  truthy (GEMINI_API_KEY env) = false ->
  IntentParser._call_gemini_api env user_input st = (Return None, st).
Proof.
  intros Hkey. unfold IntentParser._call_gemini_api.
  destruct (GEMINI_API_KEY env) as [key|]; [|reflexivity].
  simpl in Hkey. rewrite Hkey. reflexivity.
Qed.

Lemma intent_api_quiet env (user_input : string) :
  truthy (GEMINI_API_KEY env) = false ->
  quiet (IntentParser._call_gemini_api env user_input).
Proof. intros Hkey st. now rewrite intent_api_without_key. Qed.

Lemma fallback_intent_quiet env (user_input user_id : string) :
  quiet (IntentParser._create_fallback_intent env user_input user_id).
Proof. unfold IntentParser._create_fallback_intent. quiet_auto. Qed.

#[local] Hint Resolve intent_api_quiet fallback_intent_quiet : quiet.

Lemma parse_response_quiet env (j : json) (user_input user_id : string) :
  quiet (IntentParser._parse_gemini_response env j user_input user_id).
Proof.
  unfold IntentParser._parse_gemini_response, IntentParser.parsed_intent.
  quiet_auto.
Qed.

#[local] Hint Resolve parse_response_quiet : quiet.

Lemma intent_quiet_without_key env (path : string) (post_data : payload) :
  truthy (GEMINI_API_KEY env) = false ->
  quiet (IntentParser.do_POST env path post_data).
Proof.
  intros Hkey. unfold IntentParser.do_POST,
    IntentParser._handle_intent_parsing, IntentParser._send_error_response,
    IntentParser._send_json_response.
  quiet_auto.
Qed.

End MissingCredentials.

Section MissingCredentialsClaim.
Import Py Rt.

(** C2. Without a provider credential ([GEMINI_API_KEY] unset or empty)
    no outbound call is attempted: the intent parser's
    [_call_gemini_api] returns [None] at once and its handler is the
    rule-based fallback; the content service's blog handler takes the
    template fallback; in both services the log of outbound calls is
    unchanged whatever the request. *)
Theorem missing_credentials_skip_network env :
  truthy (GEMINI_API_KEY env) = false ->
  (forall user_input st,
     IntentParser._call_gemini_api env user_input st = (Return None, st)) /\
  (forall path post_data st,
     calls (snd (IntentParser.do_POST env path post_data st)) = calls st) /\
  (forall r st,
     nonempty (IntentParser.user_input_of r) = true ->
     IntentParser.do_POST env "/v1/parse" (Json r) st =
       (fallback_intent ← IntentParser._create_fallback_intent env
            (IntentParser.user_input_of r) (get r "user_id" "anonymous");
        mret (200, fallback_intent)) st) /\
  (forall post_data st,
     calls (snd (ContentService.do_POST env post_data st)) = calls st) /\
  (forall r st c,
     ContentService.generate_fallback_content
       (ContentService.topic_of r) (ContentService.word_count_of r) = Return c ->
     exists body,
       returned (ContentService.generate_blog_content env r st) = Some body /\
       jpath ["result"; "content"] body = Some (JStr c) /\
       jpath ["result"; "metadata"; "ai_generated"] body = Some (JBool false) /\
       jpath ["result"; "metadata"; "model"] body
       = Some (JStr "template-fallback")).
Proof.
  intros Hkey. repeat split.
  - intros. now apply intent_api_without_key.
  - intros. now apply intent_quiet_without_key.
  - intros r st Hne. unfold IntentParser.do_POST,
      IntentParser._handle_intent_parsing, IntentParser._create_fallback_intent,
      IntentParser._send_json_response, loads_request.
    run. simpl. rewrite Hne. simpl.
    rewrite intent_api_without_key by assumption. simpl.
    now destruct (IntentParser.detect _).
  - intros. now apply content_quiet_without_key.
  - intros r st c Hc. unfold ContentService.generate_blog_content.
    rewrite Hkey, Hc. run. simpl. eexists. repeat split.
Qed.

Lemma missing_credentials_skip_network_witness :
  calls (snd (IntentParser.do_POST env_without_key "/v1/parse"
                (Json parse_request) {| calls := []; drawn := 0 |})) = [].
Proof.
  exact (proj1 (proj2 (missing_credentials_skip_network env_without_key
                         eq_refl))
           "/v1/parse" (Json parse_request) {| calls := []; drawn := 0 |}).
Defined.

End MissingCredentialsClaim.

(** ** The envelopes of the content service *)

Section ContentEnvelopes.
Import Py Rt ContentService.







End ContentEnvelopes.

(** ** Requests without a subject *)

Section MissingSubject.
Import Py Rt.

Lemma blog_completes env (r : request) st :
  ContentService.word_count_of r < 2 ^ 1023 ->
  exists body st',
    ContentService.generate_blog_content env r st = (Return body, st') /\
    completed body.
Proof.
  intros Hwc. unfold ContentService.generate_blog_content.
  destruct (adjust_returns
              (ContentService.template (ContentService.topic_of r))
              (ContentService.additional (ContentService.topic_of r))
              (ContentService.word_count_of r) Hwc) as [c Hc].
  fold (ContentService.generate_fallback_content
          (ContentService.topic_of r) (ContentService.word_count_of r)) in Hc.
  rewrite Hc. run.
  destruct (truthy (GEMINI_API_KEY env)).
  - destruct (ContentService.call_gemini_api env _ _ _) as [[content|e] st2];
      [destruct (ContentService.primary_quality_score env content)|];
      do 2 eexists; split; reflexivity.
  - do 2 eexists; split; reflexivity.
Qed.

Lemma generic_completes env (r : request) st :
  exists body st',
    ContentService.generate_generic_content env r st = (Return body, st') /\
    completed body.
Proof.
  unfold ContentService.generate_generic_content.
  destruct (adjust_returns
              (ContentService.template (ContentService.topic_of r))
              (ContentService.additional (ContentService.topic_of r))
              600 eq_refl) as [c Hc].
  fold (ContentService.generate_fallback_content
          (ContentService.topic_of r) 600) in Hc.
  rewrite Hc. run. do 2 eexists; split; reflexivity.
Qed.

Lemma content_do_POST_completes env (r : request) st :
  ContentService.word_count_of r < 2 ^ 1023 ->
  exists body st',
    ContentService.do_POST env (Json r) st = (Return (200, body), st') /\
    completed body.
Proof.
  intros Hwc. unfold ContentService.do_POST, loads_request. run.
  destruct (String.eqb _ _).
  - destruct (blog_completes env r st Hwc) as (body & st' & -> & Hc). eauto.
  - destruct (String.eqb _ _).
    + unfold ContentService.generate_social_content. run.
      do 2 eexists; split; reflexivity.
    + destruct (generic_completes env r st) as (body & st' & -> & Hc). eauto.
Qed.




End MissingSubject.

(** ** Failure of the primary call *)

Section PrimaryFailure.
Import Py Rt.








End PrimaryFailure.

(** ** The quality score of generated text *)

Section QualityScore.
Import Py Rt ContentService.

Lemma score_cases (k : Z) :
  0 <= k < 6 ->
  int_mul_float k (literal 5 100) = Return (fmul (float_of_Z k) (literal 5 100)) /\
  (47 # 10 <= Qvalue (score k) <= 499 # 100)%Q /\
  (Qabs (Qvalue (score k) - ((47 # 10) + (k # 20))) <= 1 # 1000000000000000)%Q.
Proof.
  intros Hk.
  assert (k = 0 \/ k = 1 \/ k = 2 \/ k = 3 \/ k = 4 \/ k = 5) as Hcases by lia.
  repeat (destruct Hcases as [-> | Hcases]); try subst k;
    (split; [reflexivity|]); vm_compute; intuition discriminate.
Qed.



End QualityScore.

(** ** Two runs of the fallback *)

Section TwoRuns.
Import Py Rt.

(** C8, amended. Two runs of the fallback on the same task, in any two
    environments (clock, uuid generator, hash seed, upstream): the fallback
    intent is the same once the timestamp and the two generated
    identifiers ("intent_id" and the function's "id") are left out; the
    fallback text of the content service is the same outright, and so is
    the generic handler's envelope once "timestamp" and "execution_id" are
    left out. *)
Theorem fallback_two_runs env1 env2 st1 st2 :
  (forall user_input user_id,
     exists j1 j2,
       returned (IntentParser._create_fallback_intent env1 user_input user_id st1)
       = Some j1 /\
       returned (IntentParser._create_fallback_intent env2 user_input user_id st2)
       = Some j2 /\
       erase ["timestamp"; "intent_id"; "id"] j1
       = erase ["timestamp"; "intent_id"; "id"] j2) /\
  (forall r,
     option_map (jpath ["result"; "content"])
       (returned (ContentService.generate_generic_content env1 r st1))
     = option_map (jpath ["result"; "content"])
         (returned (ContentService.generate_generic_content env2 r st2)) /\
     option_map (erase ["timestamp"; "execution_id"])
       (returned (ContentService.generate_generic_content env1 r st1))
     = option_map (erase ["timestamp"; "execution_id"])
         (returned (ContentService.generate_generic_content env2 r st2))) /\
  (forall r,
     truthy (GEMINI_API_KEY env1) = false ->
     truthy (GEMINI_API_KEY env2) = false ->
     option_map (jpath ["result"; "content"])
       (returned (ContentService.generate_blog_content env1 r st1))
     = option_map (jpath ["result"; "content"])
         (returned (ContentService.generate_blog_content env2 r st2))).
Proof.
  split; [|split].
  - intros user_input user_id. unfold IntentParser._create_fallback_intent.
    destruct (IntentParser.detect user_input) as [w f]. run.
    do 2 eexists. split; [reflexivity|]. split; reflexivity.
  - intros r. unfold ContentService.generate_generic_content. run.
    destruct (ContentService.generate_fallback_content _ _); split; reflexivity.
  - intros r H1 H2. unfold ContentService.generate_blog_content.
    rewrite H1, H2. run.
    destruct (ContentService.generate_fallback_content _ _); reflexivity.
Qed.

Lemma fallback_two_runs_witness :
  option_map (jpath ["result"; "content"])
    (returned (ContentService.generate_blog_content env_without_key
                 empty_request st0))
  = option_map (jpath ["result"; "content"])
      (returned (ContentService.generate_blog_content env_uuid_sequence
                   empty_request st0)).
Proof.
  apply (proj2 (proj2 (fallback_two_runs env_without_key env_uuid_sequence
                         st0 st0)) empty_request); reflexivity.
Defined.

(** C8 as stated fails for the fallback intent: the two calls differ in
    the identifiers drawn from [uuid4], so leaving out the timestamp alone
    does not make their results equal. *)
Lemma fallback_intent_ids_differ :
  option_map (erase ["timestamp"]) (returned first_call)
  <> option_map (erase ["timestamp"]) (returned second_call) /\
  option_map (jget "intent_id") (returned first_call)
  = Some (Some (JStr "9b1d6e0c-2a4f-48e7-b3c5-d7e9f1a3b5c7")) /\
  option_map (jget "intent_id") (returned second_call)
  = Some (Some (JStr "5e8f2b6d-0a3c-47f1-a9d7-c5b3e1f90a2b")).
Proof.
  split; [|split; reflexivity]. vm_compute. intros H. discriminate H.
Qed.

End TwoRuns.

(** * Further properties of the three services *)

(** ** More on the words of a text *)

Module StripFacts.
Import Py StrFacts.






End StripFacts.

(** ** The blog handler and its upstream *)

Section BlogUpstream.
Import Py Rt ContentService StripFacts.

Lemma call_raises_on_unusable env topic wc st txt parsed :
  (forall o, requests_post env o = Responded 200 txt parsed) ->
  unusable parsed ->
  exists e st', call_gemini_api env topic wc st = (Raise e, st').
Proof.
  intros Hpost Hun. unfold call_gemini_api. run. rewrite Hpost. simpl.
  destruct parsed as [result|]; [|do 2 eexists; reflexivity].
  simpl in Hun. destruct (candidate_text result) as [[content|e]|].
  - now destruct (Hun content).
  - do 2 eexists; reflexivity.
  - do 2 eexists; reflexivity.
Qed.

(** X1. A 200 answer is no guarantee: when its body is not JSON, or holds no
    candidate text the handler can extract, the blog handler answers with
    the template text, scored 4.0 and marked as not generated. *)
Theorem unusable_answer_falls_back env (r : request) st txt parsed :
  truthy (GEMINI_API_KEY env) = true ->
  get r "content_type" "blog_post" = "blog_post" ->
  (forall o, requests_post env o = Responded 200 txt parsed) ->
  unusable parsed ->
  word_count_of r < 2 ^ 1023 ->
  exists c body st',
    generate_fallback_content (topic_of r) (word_count_of r) = Return c /\
    do_POST env (Json r) st = (Return (200, body), st') /\
    completed body /\
    jpath ["result"; "content"] body = Some (JStr c) /\
    jpath ["result"; "quality_score"] body = Some (JFloat (literal 40 10)) /\
    jpath ["result"; "metadata"; "ai_generated"] body = Some (JBool false) /\
    jpath ["result"; "metadata"; "model"] body = Some (JStr "template-fallback").
Proof.
  intros Hkey Hct Hpost Hun Hwc.
  destruct (adjust_returns (template (topic_of r)) (additional (topic_of r))
              (word_count_of r) Hwc) as [c Hc].
  fold (generate_fallback_content (topic_of r) (word_count_of r)) in Hc.
  exists c. unfold do_POST, loads_request. run.
  rewrite Hct. change (String.eqb "blog_post" "blog_post") with true.
  unfold generate_blog_content. rewrite Hkey, Hc. run.
  match goal with
  | |- context [call_gemini_api env ?t ?w ?s] =>
      destruct (call_raises_on_unusable env t w s txt parsed Hpost Hun)
        as (e & st1 & ->)
  end.
  do 2 eexists. repeat split.
Qed.

Lemma unusable_answer_falls_back_witness :
  exists c body st',
    generate_fallback_content "AI automation" 800 = Return c /\
    do_POST (env_with (Some "test-key")
               (Responded 200 "{}" (Some (JObj [("candidates", JList [])]))))
      (Json empty_request) st0 = (Return (200, body), st') /\
    completed body /\
    jpath ["result"; "content"] body = Some (JStr c) /\
    jpath ["result"; "quality_score"] body = Some (JFloat (literal 40 10)) /\
    jpath ["result"; "metadata"; "ai_generated"] body = Some (JBool false) /\
    jpath ["result"; "metadata"; "model"] body = Some (JStr "template-fallback").
Proof.
  apply (unusable_answer_falls_back
           (env_with (Some "test-key")
              (Responded 200 "{}" (Some (JObj [("candidates", JList [])]))))
           empty_request st0 "{}" (Some (JObj [("candidates", JList [])]))).
  - reflexivity.
  - reflexivity.
  - intros o. reflexivity.
  - intros content. discriminate.
  - reflexivity.
Defined.

Lemma quality_score_returns env (content : string) :
  exists q, primary_quality_score env content = Return q /\
            (47 # 10 <= Qvalue q <= 499 # 100)%Q.
Proof.
  unfold primary_quality_score.
  destruct (score_cases (hash env content mod 6)
              ltac:(apply Z.mod_pos_bound; lia)) as (-> & Hrange & _).
  eexists. split; [reflexivity | exact Hrange].
Qed.



End BlogUpstream.

(** ** Content types other than the blog post *)

Section OtherContentTypes.
Import Py Rt ContentService.

Lemma fallback_600_returns (topic : string) :
  exists c, generate_fallback_content topic 600 = Return c.
Proof. apply adjust_returns. reflexivity. Qed.

(** X3. Only a blog post consults the credential, the upstream and the
    requested word count: a request of any other content type makes no
    outbound call, and its answer is the same whatever [word_count] it
    carries and whatever the credential, the upstream and the hash seed of
    the process are. *)
Theorem other_types_stay_local env (r : request) :
  get r "content_type" "blog_post" <> "blog_post" ->
  (forall st, calls (snd (do_POST env (Json r) st)) = calls st) /\
  (forall n st,
     do_POST env (Json (set_int "word_count" n r)) st
     = do_POST env (Json r) st) /\
  (forall env' st,
     (forall n, uuid4_hex env' n = uuid4_hex env n) ->
     gmtime_strftime env' = gmtime_strftime env ->
     do_POST env' (Json r) st = do_POST env (Json r) st).
Proof.
  intros Hct. apply String.eqb_neq in Hct.
  destruct (fallback_600_returns (topic_of r)) as [c Hc].
  repeat split.
  - intros st. unfold do_POST, loads_request. run. rewrite Hct.
    unfold generate_social_content, generate_generic_content. run.
    rewrite Hc. destruct (String.eqb _ "social_media"); reflexivity.
  - intros n st. unfold do_POST, loads_request. run.
    change (get (set_int "word_count" n r) "content_type" "blog_post")
      with (get r "content_type" "blog_post").
    rewrite Hct. reflexivity.
  - intros env' st Hu Ht. unfold do_POST, loads_request. run. rewrite Hct.
    unfold generate_social_content, generate_generic_content. run.
    rewrite Hc.
    destruct (String.eqb _ "social_media"); simpl; now rewrite Hu, Ht.
Qed.

Lemma other_types_stay_local_witness :
  calls (snd (do_POST (env_with (Some "test-key") ConnectionFailed)
                (Json {| text := {[ "content_type" := "social_media" ]};
                         ints := {[ "word_count" := 5000 ]} |}) st0)) = [].
Proof.
  refine (proj1 (other_types_stay_local
                   (env_with (Some "test-key") ConnectionFailed)
                   {| text := {[ "content_type" := "social_media" ]};
                      ints := {[ "word_count" := 5000 ]} |} _) st0).
  intros H. vm_compute in H. discriminate H.
Defined.

End OtherContentTypes.

(** ** The outbound call of the blog handler *)

Section BlogCall.
Import Py Rt ContentService.

(** The call of a blog request, for a credential [key]. *)
Lemma blog_call_logged env key (r : request) st :
  GEMINI_API_KEY env = Some key -> nonempty key = true ->
  get r "content_type" "blog_post" = "blog_post" ->
  exists o,
    snd (do_POST env (Json r) st)
    = {| calls := o :: calls st; drawn := S (drawn st) |} /\
    url o = gemini_endpoint /\
    headers o = [("Content-Type", "application/json"); ("x-goog-api-key", key)] /\
    jpath ["generationConfig"; "maxOutputTokens"] (body o)
    = Some (JInt (word_count_of r * 2)).
Proof.
  intros Hkey Hne Hct. eexists. split; [|repeat split].
  - unfold do_POST, loads_request. run.
    rewrite Hct. change (String.eqb "blog_post" "blog_post") with true.
    unfold generate_blog_content, call_gemini_api. rewrite Hkey.
    cbn [truthy]. rewrite Hne. run.
    destruct (requests_post env _) as [|sc txt [result|]]; simpl.
    + destruct (generate_fallback_content _ _); reflexivity.
    + destruct (sc =? 200); simpl.
      * destruct (candidate_text result) as [[content|e]|]; simpl.
        -- destruct (primary_quality_score env content); simpl;
             [reflexivity|].
           destruct (generate_fallback_content _ _); reflexivity.
        -- destruct (generate_fallback_content _ _); reflexivity.
        -- destruct (generate_fallback_content _ _); reflexivity.
      * destruct (generate_fallback_content _ _); reflexivity.
    + destruct (sc =? 200); simpl;
        destruct (generate_fallback_content _ _); reflexivity.
  - reflexivity.
  - simpl. unfold api_headers. now rewrite Hkey.
  - reflexivity.
Qed.

(** X4. With a credential, a blog request makes exactly one outbound call,
    whatever comes back (no retry): to the Gemini endpoint, with the
    credential in the [x-goog-api-key] header and an output limit of twice
    the requested word count, however large (the advertised maximum of
    2000 words is not applied); one identifier is drawn. *)
Theorem blog_request_calls_once env key (r : request) st :
  GEMINI_API_KEY env = Some key -> nonempty key = true ->
  get r "content_type" "blog_post" = "blog_post" ->
  exists o,
    calls (snd (do_POST env (Json r) st)) = o :: calls st /\
    drawn (snd (do_POST env (Json r) st)) = S (drawn st) /\
    url o = gemini_endpoint /\
    headers o = [("Content-Type", "application/json"); ("x-goog-api-key", key)] /\
    jpath ["generationConfig"; "maxOutputTokens"] (body o)
    = Some (JInt (word_count_of r * 2)).
Proof.
  intros Hkey Hne Hct.
  destruct (blog_call_logged env key r st Hkey Hne Hct)
    as (o & -> & Hu & Hh & Hm).
  exists o. repeat split; assumption.
Qed.

Lemma blog_request_calls_once_witness :
  exists o,
    calls (snd (do_POST (env_with (Some "test-key") ConnectionFailed)
                  (Json {| text := ∅; ints := {[ "word_count" := 5000 ]} |})
                  st0)) = [o] /\
    drawn (snd (do_POST (env_with (Some "test-key") ConnectionFailed)
                  (Json {| text := ∅; ints := {[ "word_count" := 5000 ]} |})
                  st0)) = 1%nat /\
    url o = gemini_endpoint /\
    headers o = [("Content-Type", "application/json");
                 ("x-goog-api-key", "test-key")] /\
    jpath ["generationConfig"; "maxOutputTokens"] (body o)
    = Some (JInt 10000).
Proof.
  destruct (blog_request_calls_once
              (env_with (Some "test-key") ConnectionFailed) "test-key"
              {| text := ∅; ints := {[ "word_count" := 5000 ]} |} st0)
    as (o & H1 & H2 & H3 & H4 & H5); [reflexivity | reflexivity | reflexivity |].
  exists o. split; [exact H1|]. split; [exact H2|]. split; [exact H3|].
  split; [exact H4 | exact H5].
Defined.

(** X5. The GET side of the content service tells the truth about the
    credential: [capabilities.gemini_ai] of [/health] and
    [ai_integration.available] of [/capabilities] are true exactly when a
    blog request goes to the upstream, and answering a GET neither calls
    out nor draws an identifier. *)
Theorem health_flag_matches_dispatch env (r : request) st :
  get r "content_type" "blog_post" = "blog_post" ->
  exists flag health capabilities,
    do_GET env "/health" st = (Return (200, health), st) /\
    do_GET env "/capabilities" st = (Return (200, capabilities), st) /\
    jpath ["capabilities"; "gemini_ai"] health = Some (JBool flag) /\
    jpath ["ai_integration"; "available"] capabilities = Some (JBool flag) /\
    (flag = true <-> calls (snd (do_POST env (Json r) st)) <> calls st).
Proof.
  intros Hct. exists (truthy (GEMINI_API_KEY env)). do 2 eexists.
  split; [reflexivity|]. split; [reflexivity|].
  split; [reflexivity|]. split; [reflexivity|].
  destruct (truthy (GEMINI_API_KEY env)) eqn:Hkey.
  - destruct (GEMINI_API_KEY env) as [key|] eqn:Ek; [|discriminate].
    destruct (blog_call_logged env key r st Ek Hkey Hct) as (o & -> & _).
    simpl. split; [|reflexivity]. intros _ H.
    apply (f_equal (@length outbound)) in H. simpl in H. lia.
  - rewrite (content_quiet_without_key env (Json r) Hkey st).
    split; [discriminate | congruence].
Qed.

Lemma health_flag_matches_dispatch_witness :
  exists flag health capabilities,
    do_GET env_without_key "/health" st0 = (Return (200, health), st0) /\
    do_GET env_without_key "/capabilities" st0
    = (Return (200, capabilities), st0) /\
    jpath ["capabilities"; "gemini_ai"] health = Some (JBool flag) /\
    jpath ["ai_integration"; "available"] capabilities = Some (JBool flag) /\
    (flag = true <->
     calls (snd (do_POST env_without_key (Json empty_request) st0))
     <> calls st0).
Proof.
  apply (health_flag_matches_dispatch env_without_key empty_request st0).
  reflexivity.
Defined.

End BlogCall.

(** ** The quality scores of the content service *)

Section ScoreRange.
Import Py Rt ContentService.

Lemma literal_scores_in_range :
  in_range (literal 40 10) /\ in_range (literal 42 10) /\
  in_range (literal 43 10) /\ in_range (literal 44 10).
Proof. unfold in_range. vm_compute. intuition discriminate. Qed.

Lemma score_47_in_range (q : float) :
  (47 # 10 <= Qvalue q <= 499 # 100)%Q -> in_range q.
Proof.
  intros [Hlo Hhi]. split.
  - eapply Qle_trans; [|exact Hlo]. discriminate.
  - eapply Qle_trans; [exact Hhi|]. discriminate.
Qed.

Lemma blog_score_in_range env (r : request) st body st' :
  generate_blog_content env r st = (Return body, st') ->
  exists f, jpath ["result"; "quality_score"] body = Some (JFloat f) /\
            in_range f.
Proof.
  destruct literal_scores_in_range as (H40 & H42 & _).
  unfold generate_blog_content. set (block := try_except _ _).
  assert (Hblock : forall st1 c q ai st2,
            block st1 = (Return (c, q, ai), st2) -> in_range q).
  { subst block. intros st1 c q ai st2. unfold call_gemini_api. run.
    destruct (truthy (GEMINI_API_KEY env)).
    - destruct (requests_post env _) as [|sc txt [result|]]; simpl;
        [| destruct (sc =? 200); simpl;
           [destruct (candidate_text result) as [[content|e]|]; simpl;
            [destruct (quality_score_returns env content) as (q' & -> & Hq);
             simpl | |] |]
         | destruct (sc =? 200); simpl];
        try (destruct (generate_fallback_content _ _); simpl);
        intros H; inversion H; subst; auto using score_47_in_range.
    - destruct (generate_fallback_content _ _); simpl;
        intros H; inversion H; subst; assumption. }
  clearbody block. run.
  destruct (block _) as [[[[c q] ai]|e] st2] eqn:E; intros H;
    inversion H; subst.
  exists q. split; [reflexivity|]. eapply Hblock, E.
Qed.

(** X6. Every completed envelope of the content service carries a quality
    score inside the range that [/capabilities] advertises, 4.0 to 5.0;
    the error envelope carries 0.0, outside of it. *)
Theorem scores_within_advertised_range env (post_data : payload) st code body st' :
  do_POST env post_data st = (Return (code, body), st') ->
  exists f capabilities lo hi,
    jpath ["result"; "quality_score"] body = Some (JFloat f) /\
    do_GET env "/capabilities" st = (Return (200, capabilities), st) /\
    jget "quality_score_range" capabilities
    = Some (JList [JFloat lo; JFloat hi]) /\
    (Qvalue lo == 4)%Q /\ (Qvalue hi == 5)%Q /\
    (code = 200 -> (Qvalue lo <= Qvalue f <= Qvalue hi)%Q) /\
    (code <> 200 -> code = 500 /\ (Qvalue f == 0)%Q).
Proof.
  intros H.
  enough (exists f, jpath ["result"; "quality_score"] body = Some (JFloat f) /\
                    (code = 200 -> in_range f) /\
                    (code <> 200 -> code = 500 /\ (Qvalue f == 0)%Q))
    as (f & Hf & H200 & H500).
  { exists f. do 3 eexists. split; [exact Hf|]. split; [reflexivity|].
    split; [reflexivity|]. split; [reflexivity|]. split; [reflexivity|].
    split; [|exact H500]. intros Hc. apply H200 in Hc as [Hlo Hhi]. split.
    - eapply Qle_trans; [|exact Hlo]. vm_compute. discriminate.
    - eapply Qle_trans; [exact Hhi|]. vm_compute. discriminate. }
  destruct literal_scores_in_range as (_ & _ & H43 & H44).
  revert H. unfold do_POST. destruct post_data as [msg|r]; unfold loads_request.
  - run. intros H; inversion H; subst. eexists. split; [reflexivity|].
    split; [discriminate|]. intros _. split; reflexivity.
  - run.
    set (h := if String.eqb _ _ then _ else _).
    assert (Hh : forall body st', h st = (Return body, st') ->
                 exists f, jpath ["result"; "quality_score"] body
                           = Some (JFloat f) /\ in_range f).
    { subst h. intros body0 st0.
      destruct (String.eqb _ _); [apply blog_score_in_range|].
      destruct (String.eqb _ _).
      - unfold generate_social_content. run. intros H; inversion H; subst.
        now exists (literal 44 10).
      - unfold generate_generic_content. run.
        destruct (generate_fallback_content _ _); intros H; inversion H; subst.
        now exists (literal 43 10). }
    clearbody h. destruct (h st) as [[body0|e] st1] eqn:E; intros H;
      inversion H; subst.
    + destruct (Hh body st' eq_refl) as (f & Hf & Hr).
      exists f. split; [exact Hf|]. split; [auto | congruence].
    + eexists. split; [reflexivity|]. split; [discriminate|].
      intros _. split; reflexivity.
Qed.

Lemma scores_within_advertised_range_witness :
  exists f capabilities lo hi,
    jpath ["result"; "quality_score"] social_body = Some (JFloat f) /\
    do_GET env_without_key "/capabilities" st0
    = (Return (200, capabilities), st0) /\
    jget "quality_score_range" capabilities
    = Some (JList [JFloat lo; JFloat hi]) /\
    (Qvalue lo <= Qvalue f <= Qvalue hi)%Q.
Proof.
  destruct (scores_within_advertised_range env_without_key
              (Json {| text := {[ "content_type" := "social_media" ]};
                       ints := ∅ |})
              st0 200 social_body (snd social_run))
    as (f & capabilities & lo & hi & H1 & H2 & H3 & _ & _ & H4 & _);
    [reflexivity|].
  exists f, capabilities, lo, hi.
  split; [exact H1|]. split; [exact H2|]. split; [exact H3|].
  exact (H4 eq_refl).
Defined.

End ScoreRange.

(** ** More on the fallback text *)

Section FallbackEdges.
Import Py Rt ContentService StrFacts.





End FallbackEdges.

(** ** What the content service answers with an error *)

Section ContentErrors.
Import Py Rt ContentService.

(** X9. The content service answers a JSON request whose word count is below
    [2^1023] with a completed envelope, whatever the upstream does; a body
    that is not JSON gets the 500 envelope with the decoder's message,
    and nothing else happens for it: no identifier drawn, no call. *)
Theorem content_service_status env (post_data : payload) st :
  (forall r, post_data = Json r -> word_count_of r < 2 ^ 1023) ->
  exists code body st',
    do_POST env post_data st = (Return (code, body), st') /\
    match post_data with
    | Json _ => code = 200 /\ completed body
    | NotJson msg =>
        code = 500 /\ st' = st /\
        jget "status" body = Some (JStr "error") /\
        jget "error" body = Some (JStr msg) /\
        jpath ["result"; "content"] body
        = Some (JStr "Failed to generate content")
    end.
Proof.
  intros Hwc. destruct post_data as [msg|r].
  - do 3 eexists. split; [reflexivity|]. repeat split.
  - destruct (content_do_POST_completes env r st (Hwc r eq_refl))
      as (body & st' & H & Hc).
    exists 200, body, st'. now repeat split.
Qed.

Lemma content_service_status_witness :
  exists body,
    do_POST env_quota (NotJson "Expecting value: line 1 column 1 (char 0)") st0
    = (Return (500, body), st0) /\
    jget "error" body
    = Some (JStr "Expecting value: line 1 column 1 (char 0)").
Proof.
  destruct (content_service_status env_quota
              (NotJson "Expecting value: line 1 column 1 (char 0)") st0)
    as (code & body & st' & H & -> & -> & _ & He & _); [discriminate|].
  exists body. split; [exact H | exact He].
Defined.

End ContentErrors.

(** ** Routing by content type *)

Section ContentRouting.
Import Py Rt ContentService.

(** X27. The content type of a request decides its handler: "blog_post",
    or none, the blog handler; "social_media" the social handler; any
    other value the generic handler, and that includes "email_newsletter",
    which [/capabilities] lists as supported.  The handler shows in the
    prefix of the execution id, followed by the first eight hex digits of
    a fresh uuid, and in [metadata.content_type]. *)
Theorem content_type_routes env (r : request) st :
  word_count_of r < 2 ^ 1023 ->
  let content_type := get r "content_type" "blog_post" in
  exists body st' capabilities,
    do_POST env (Json r) st = (Return (200, body), st') /\
    jget "execution_id" body
    = Some (JStr ((if String.eqb content_type "blog_post" then "real_"
                   else if String.eqb content_type "social_media" then "social_"
                   else "generic_")
                  ++ str_slice_to (uuid4_hex env (drawn st)) 8)) /\
    jpath ["result"; "metadata"; "content_type"] body
    = (if String.eqb content_type "blog_post" then None
       else if String.eqb content_type "social_media"
            then Some (JStr "social_media")
       else Some (JStr "generic")) /\
    do_GET env "/capabilities" st = (Return (200, capabilities), st) /\
    jget "supported_content_types" capabilities
    = Some (JList [JStr "blog_post"; JStr "social_media";
                   JStr "email_newsletter"; JStr "generic"]).
Proof.
  intros Hwc content_type. subst content_type.
  enough (exists body st',
    do_POST env (Json r) st = (Return (200, body), st') /\
    jget "execution_id" body
    = Some (JStr ((if String.eqb (get r "content_type" "blog_post") "blog_post"
                   then "real_"
                   else if String.eqb (get r "content_type" "blog_post")
                             "social_media" then "social_"
                   else "generic_")
                  ++ str_slice_to (uuid4_hex env (drawn st)) 8)) /\
    jpath ["result"; "metadata"; "content_type"] body
    = (if String.eqb (get r "content_type" "blog_post") "blog_post" then None
       else if String.eqb (get r "content_type" "blog_post") "social_media"
            then Some (JStr "social_media")
       else Some (JStr "generic"))) as (body & st' & H1 & H2 & H3).
  { exists body, st'. eexists. split; [exact H1|]. split; [exact H2|].
    split; [exact H3|]. split; reflexivity. }
  unfold do_POST, loads_request. run.
  destruct (String.eqb _ "blog_post").
  - pose proof (blog_completes env r st Hwc) as (b & s & Hb & _).
    revert Hb. unfold generate_blog_content. set (block := try_except _ _).
    run. destruct (block _) as [[[[c q] ai]|e] st2]; [|discriminate].
    intros _. do 2 eexists. split; [reflexivity|]. split; reflexivity.
  - destruct (String.eqb _ "social_media").
    + unfold generate_social_content. run.
      do 2 eexists. split; [reflexivity|]. split; reflexivity.
    + unfold generate_generic_content. run.
      destruct (fallback_600_returns (topic_of r)) as [c ->].
      do 2 eexists. split; [reflexivity|]. split; reflexivity.
Qed.

Lemma content_type_routes_witness :
  exists body st',
    do_POST env_without_key
      (Json {| text := {[ "content_type" := "email_newsletter" ]}; ints := ∅ |})
      st0 = (Return (200, body), st') /\
    jget "execution_id" body = Some (JStr "generic_3f2a9c1e") /\
    jpath ["result"; "metadata"; "content_type"] body = Some (JStr "generic").
Proof.
  destruct (content_type_routes env_without_key
              {| text := {[ "content_type" := "email_newsletter" ]}; ints := ∅ |}
              st0) as (body & st' & _ & H1 & H2 & H3 & _); [reflexivity|].
  exists body, st'. split; [exact H1|]. split; [exact H2 | exact H3].
Defined.

End ContentRouting.

(** ** The MCP manager and its peer *)

Section McpPeer.
Import Py Rt McpManager.

(** The call to the peer never raises, and is logged once. *)
Lemma mcp_call_spec env (url : string) (data : json) st :
  let o := {| url := url; headers := [("Content-Type", "application/json")];
              body := data |} in
  _call_mcp_service env url data st =
  (Return match requests_post env o with
          | Responded status_code _ (Some result) =>
              if status_code =? 200 then Some result else None
          | _ => None
          end,
   {| calls := o :: calls st; drawn := drawn st |}).
Proof.
  intros o. unfold _call_mcp_service. run. fold o.
  destruct (requests_post env o) as [|sc txt [result|]]; simpl;
    [reflexivity | |]; destruct (sc =? 200); reflexivity.
Qed.

(** What the two generation handlers do with the answer [response] of
    [_call_mcp_service]: an object with members is formatted, anything
    else ends in the fallback response. *)
Lemma content_generation_cases env (r : request) st :
  exists body st',
    _handle_content_generation env r st = (Return (200, body), st') /\
    completed body /\
    calls st' =
      {| url := "http://localhost:8804/generate";
         headers := [("Content-Type", "application/json")];
         body := JObj [("prompt", JStr (get r "intent" "Generate content"));
                       ("type", JStr (get r "content_type" "blog_post"));
                       ("user_id", JStr (get r "user_id" "anonymous"));
                       ("timestamp", JStr (now env))] |} :: calls st.
Proof.
  unfold _handle_content_generation. run.
  rewrite mcp_call_spec. cbv zeta.
  destruct (answered _) as [response|]; [|do 2 eexists; repeat split].
  destruct response; simpl; do 2 eexists; repeat split.
Qed.

Lemma blog_generation_cases env (r : request) st :
  exists body st',
    _handle_blog_generation env r st = (Return (200, body), st') /\
    completed body /\
    calls st' =
      {| url := "http://localhost:8804/generate/blog";
         headers := [("Content-Type", "application/json")];
         body := JObj [("prompt", JStr (get r "intent" "Write a blog post"));
                       ("type", JStr "blog_post");
                       ("enhanced", JBool true);
                       ("include_seo", JBool true);
                       ("target_length", JInt 800);
                       ("timestamp", JStr (now env))] |} :: calls st.
Proof.
  unfold _handle_blog_generation. run.
  rewrite mcp_call_spec. cbv zeta.
  destruct (answered _) as [response|]; [|do 2 eexists; repeat split].
  destruct response; simpl; do 2 eexists; repeat split.
Qed.

End McpPeer.

Section McpDispatch.
Import Py Rt McpManager.


(** X11. One request, one call: what the manager forwards depends on the path
    and on the request only.  The blog route posts to [/generate/blog] a
    request of type [blog_post] without the caller's [content_type] and
    [user_id]; every other route posts to [/generate] the caller's
    intent, content type and user, with their defaults. *)
Theorem mcp_forwards_once env (path : string) (r : request) st :
  path <> "/process/text" ->
  let blog := String.eqb path "/generate/blog" in
  exists o,
    calls (snd (do_POST env path (Json r) st)) = o :: calls st /\
    url o = (if blog then "http://localhost:8804/generate/blog"
             else "http://localhost:8804/generate") /\
    headers o = [("Content-Type", "application/json")] /\
    jget "prompt" (body o)
    = Some (JStr (get r "intent" (if blog then "Write a blog post"
                                  else "Generate content"))) /\
    jget "type" (body o)
    = Some (JStr (if blog then "blog_post"
                  else get r "content_type" "blog_post")) /\
    jget "user_id" (body o)
    = (if blog then None else Some (JStr (get r "user_id" "anonymous"))).
Proof.
  intros Hpath blog. apply String.eqb_neq in Hpath.
  unfold do_POST, _handle_generic_request, loads_request. run.
  destruct (String.eqb path "/generate/content") eqn:E1.
  { apply String.eqb_eq in E1. subst path. subst blog. simpl.
    destruct (content_generation_cases env r st) as (b & st' & -> & _ & Hl).
    simpl. rewrite Hl. eexists. split; [reflexivity|]. repeat split. }
  subst blog. destruct (String.eqb path "/generate/blog") eqn:E2.
  { destruct (blog_generation_cases env r st) as (b & st' & -> & _ & Hl).
    simpl. rewrite Hl. eexists. split; [reflexivity|]. repeat split. }
  rewrite Hpath.
  destruct (content_generation_cases env r st) as (b & st' & -> & _ & Hl).
  simpl. rewrite Hl. eexists. split; [reflexivity|]. repeat split.
Qed.

Lemma mcp_forwards_once_witness :
  exists o,
    calls (snd (do_POST env_quota "/generate/blog"
                  (Json {| text := {[ "content_type" := "social_media";
                                      "user_id" := "u-17" ]};
                           ints := ∅ |}) st0)) = [o] /\
    url o = "http://localhost:8804/generate/blog" /\
    jget "type" (body o) = Some (JStr "blog_post") /\
    jget "user_id" (body o) = None.
Proof.
  destruct (mcp_forwards_once env_quota "/generate/blog"
              {| text := {[ "content_type" := "social_media";
                            "user_id" := "u-17" ]};
                 ints := ∅ |} st0)
    as (o & H1 & H2 & _ & _ & H3 & H4); [discriminate|].
  exists o. split; [exact H1|]. split; [exact H2|]. split; [exact H3 | exact H4].
Defined.



End McpDispatch.

Section McpPassThrough.
Import Py Rt McpManager.

(** X13. When the peer answers 200 with a JSON object that has members, the
    content route passes its [content], [title], [quality_score],
    [word_count] and [execution_time_ms] through as they are, of whatever
    type, and fills in a default for each one that is missing; the
    envelope is marked as real content, has no warning, and its
    [metadata.request_id] is its [execution_id]. *)
Theorem mcp_content_passes_through env (path : string) (r : request) st
    txt (ms : list (string * json)) :
  path <> "/generate/blog" -> path <> "/process/text" ->
  ms <> [] ->
  (forall o, requests_post env o = Responded 200 txt (Some (JObj ms))) ->
  exists body st',
    do_POST env path (Json r) st = (Return (200, body), st') /\
    completed body /\
    jpath ["result"; "content"] body
    = Some (member_or "content" (JStr "Generated content") ms) /\
    jpath ["result"; "title"] body
    = Some (member_or "title" (JStr "Generated Title") ms) /\
    jpath ["result"; "quality_score"] body
    = Some (member_or "quality_score" (JFloat (literal 45 10)) ms) /\
    jpath ["result"; "word_count"] body
    = Some (member_or "word_count" (JInt 500) ms) /\
    jpath ["result"; "execution_time_ms"] body
    = Some (member_or "execution_time_ms" (JInt 2000) ms) /\
    jpath ["result"; "real_ai_content"] body = Some (JBool true) /\
    jget "warning" body = None /\
    jget "execution_id" body = Some (JStr (str_uuid (uuid4_hex env (drawn st)))) /\
    jpath ["metadata"; "request_id"] body = jget "execution_id" body.
Proof.
  intros Hblog Hpath Hms Hpost.
  apply String.eqb_neq in Hblog, Hpath.
  assert (Hc : exists body st',
    _handle_content_generation env r st = (Return (200, body), st') /\
    completed body /\
    jpath ["result"; "content"] body
    = Some (member_or "content" (JStr "Generated content") ms) /\
    jpath ["result"; "title"] body
    = Some (member_or "title" (JStr "Generated Title") ms) /\
    jpath ["result"; "quality_score"] body
    = Some (member_or "quality_score" (JFloat (literal 45 10)) ms) /\
    jpath ["result"; "word_count"] body
    = Some (member_or "word_count" (JInt 500) ms) /\
    jpath ["result"; "execution_time_ms"] body
    = Some (member_or "execution_time_ms" (JInt 2000) ms) /\
    jpath ["result"; "real_ai_content"] body = Some (JBool true) /\
    jget "warning" body = None /\
    jget "execution_id" body = Some (JStr (str_uuid (uuid4_hex env (drawn st)))) /\
    jpath ["metadata"; "request_id"] body = jget "execution_id" body).
  { unfold _handle_content_generation. run.
    rewrite mcp_call_spec. cbv zeta. rewrite Hpost. simpl.
    destruct ms as [|m ms']; [contradiction|]. simpl.
    do 2 eexists. split; [reflexivity|]. repeat split. }
  unfold do_POST, _handle_generic_request, loads_request. run.
  rewrite Hblog, Hpath.
  destruct (String.eqb path "/generate/content");
    destruct Hc as (b & st' & -> & H); eauto.
Qed.

Lemma mcp_content_passes_through_witness :
  exists body st',
    do_POST (env_with None
               (Responded 200 "..." (Some (JObj [("content", JInt 7)]))))
      "/generate/content" (Json empty_request) st0
    = (Return (200, body), st') /\
    jpath ["result"; "content"] body = Some (JInt 7) /\
    jpath ["result"; "title"] body = Some (JStr "Generated Title") /\
    jget "warning" body = None.
Proof.
  destruct (mcp_content_passes_through
              (env_with None
                 (Responded 200 "..." (Some (JObj [("content", JInt 7)]))))
              "/generate/content" empty_request st0 "..."
              [("content", JInt 7)])
    as (body & st' & H1 & _ & H2 & H3 & _ & _ & _ & _ & H4 & _);
    [discriminate | discriminate | discriminate | intros o; reflexivity |].
  exists body, st'. split; [exact H1|]. split; [exact H2|].
  split; [exact H3 | exact H4].
Defined.

(** X14. On the blog route the peer's members go under [result.blog_post] and
    [result.quality_scores]: [keywords] becomes [seo_keywords],
    [quality_score] becomes [overall_score], the others keep their names;
    each missing one gets its default. *)
Theorem mcp_blog_passes_through env (r : request) st
    txt (ms : list (string * json)) :
  ms <> [] ->
  (forall o, requests_post env o = Responded 200 txt (Some (JObj ms))) ->
  exists body st',
    do_POST env "/generate/blog" (Json r) st = (Return (200, body), st') /\
    completed body /\
    jpath ["result"; "blog_post"; "title"] body
    = Some (member_or "title" (JStr "AI-Generated Blog Post") ms) /\
    jpath ["result"; "blog_post"; "content"] body
    = Some (member_or "content"
              (JStr "<h1>Real AI Content</h1><p>This is real AI-generated content...</p>")
              ms) /\
    jpath ["result"; "blog_post"; "meta_description"] body
    = Some (member_or "meta_description"
              (JStr "AI-generated meta description") ms) /\
    jpath ["result"; "blog_post"; "word_count"] body
    = Some (member_or "word_count" (JInt 847) ms) /\
    jpath ["result"; "blog_post"; "reading_time"] body
    = Some (member_or "reading_time" (JInt 4) ms) /\
    jpath ["result"; "blog_post"; "seo_keywords"] body
    = Some (member_or "keywords"
              (JList [JStr "AI"; JStr "automation"; JStr "technology"]) ms) /\
    jpath ["result"; "quality_scores"; "overall_score"] body
    = Some (member_or "quality_score" (JFloat (literal 48 10)) ms) /\
    jpath ["result"; "quality_scores"; "content_quality"] body
    = Some (member_or "content_quality" (JFloat (literal 45 10)) ms) /\
    jpath ["result"; "quality_scores"; "seo_score"] body
    = Some (member_or "seo_score" (JFloat (literal 43 10)) ms) /\
    jpath ["result"; "quality_scores"; "readability_score"] body
    = Some (member_or "readability_score" (JFloat (literal 46 10)) ms) /\
    jpath ["result"; "execution_time_ms"] body
    = Some (member_or "execution_time_ms" (JInt 3500) ms) /\
    jget "warning" body = None.
Proof.
  intros Hms Hpost.
  unfold do_POST, loads_request. run.
  change (String.eqb "/generate/blog" "/generate/content") with false.
  change (String.eqb "/generate/blog" "/generate/blog") with true.
  cbv iota. unfold _handle_blog_generation. run.
  rewrite mcp_call_spec. cbv zeta. rewrite Hpost. simpl.
  destruct ms as [|m ms']; [contradiction|]. simpl.
  do 2 eexists. split; [reflexivity|]. repeat split.
Qed.

Lemma mcp_blog_passes_through_witness :
  exists body st',
    do_POST (env_with None
               (Responded 200 "..."
                  (Some (JObj [("keywords", JList [JStr "tea"])]))))
      "/generate/blog" (Json empty_request) st0
    = (Return (200, body), st') /\
    jpath ["result"; "blog_post"; "seo_keywords"] body
    = Some (JList [JStr "tea"]) /\
    jpath ["result"; "blog_post"; "word_count"] body = Some (JInt 847).
Proof.
  destruct (mcp_blog_passes_through
              (env_with None
                 (Responded 200 "..."
                    (Some (JObj [("keywords", JList [JStr "tea"])]))))
              empty_request st0 "..." [("keywords", JList [JStr "tea"])])
    as (body & st' & H1 & _ & _ & _ & _ & H3 & _ & H2 & _);
    [discriminate | intros o; reflexivity |].
  exists body, st'. split; [exact H1|]. split; [exact H2 | exact H3].
Defined.

End McpPassThrough.

(** ** The GET side of the MCP manager *)

Section McpProbes.
Import Py Rt McpManager StrFacts.
Context (env : Env) (requests_get : list outbound -> string -> get_outcome).

(** X15. [/health] never fails and always reports the manager itself as
    healthy; it probes the content peer once, and the peer's entry says
    "healthy" exactly when that probe answered 200. *)
Theorem mcp_health_reports_peer st :
  exists body,
    do_GET env requests_get "/health" st
    = (Return (200, body),
       {| calls := probe "http://localhost:8804/health" :: calls st;
          drawn := drawn st |}) /\
    jget "status" body = Some (JStr "healthy") /\
    jpath ["mcp_services"; "demo_content_mcp"; "status"] body
    = Some (JStr (if peer_up requests_get (calls st) then "healthy" else "unhealthy")).
Proof.
  unfold do_GET, _handle_health, _check_service_health, peer_up. run. simpl.
  destruct (requests_get (calls st) _) as [|sc]; [|destruct (sc =? 200)];
    eexists; repeat split.
Qed.

(** X16. [/services] probes the peer twice: the entry's status comes from the
    first probe and [healthy_services] from the second, made after it, so
    the two can disagree. *)
Theorem mcp_services_probes_twice st :
  let first := probe "http://localhost:8804/health" in
  exists body,
    do_GET env requests_get "/services" st
    = (Return (200, body),
       {| calls := first :: first :: calls st; drawn := drawn st |}) /\
    jthen (jthen (jget "services" body) jfirst) (jget "status")
    = Some (JStr (if peer_up requests_get (calls st) then "healthy" else "unhealthy")) /\
    jget "healthy_services" body
    = Some (JInt (if peer_up requests_get (first :: calls st) then 1 else 0)) /\
    jget "total_services" body = Some (JInt 1).
Proof.
  unfold do_GET, _handle_services_list, _check_service_health, peer_up.
  run. simpl. eexists. repeat split.
Qed.

(** X17. A path under [/services/] is not answered: the handler it is routed
    to does not exist, the lookup raises and [do_GET] lets the exception
    out, before any probe.  Every path that is none of [/health],
    [/services] and [/services/...] gets the description of the service,
    without a probe. *)
Theorem mcp_get_routes (path : string) st :
  path <> "/health" -> path <> "/services" ->
  if startswith "/services/" path then
    do_GET env requests_get path st
    = (Raise (AttributeError
                "'RealMCPHandler' object has no attribute '_handle_service_status'"),
       st)
  else
    exists body,
      do_GET env requests_get path st = (Return (200, body), st) /\
      jget "mcp_services" body
      = Some (JList [JStr "content_generation"; JStr "text_processing";
                     JStr "image_generation"]).
Proof.
  intros H1 H2. apply String.eqb_neq in H1, H2.
  unfold do_GET. rewrite H1, H2.
  destruct (startswith "/services/" path); [reflexivity|].
  eexists. split; reflexivity.
Qed.

End McpProbes.

Section McpProbesWitness.
Import Py Rt McpManager.

Lemma mcp_get_routes_witness :
  do_GET env_quota (fun _ _ => GetFailed) "/services/demo-content-mcp" st0
  = (Raise (AttributeError
              "'RealMCPHandler' object has no attribute '_handle_service_status'"),
     st0).
Proof.
  apply (mcp_get_routes env_quota (fun _ _ => GetFailed)
           "/services/demo-content-mcp" st0); discriminate.
Defined.

End McpProbesWitness.

(** ** Looking for the JSON object in a text *)

Module FindFacts.
Import Py IntentParser StrFacts.

#[local] Arguments String.append !s1 s2 : simpl nomatch.


Lemma find_first (c : ascii) (pre rest : string) :
  occurs c pre = false ->
  find c (pre ++ String c rest) = Z.of_nat (String.length pre).
Proof.
  induction pre as [|a pre IH]; simpl; intros H.
  - now rewrite Ascii.eqb_refl.
  - apply orb_false_iff in H as [Ha Hs]. rewrite Ha, (IH Hs).
    destruct (Z.of_nat (String.length pre) =? -1) eqn:E; lia.
Qed.

Lemma rfind_absent (c : ascii) (s : string) :
  occurs c s = false -> rfind c s = -1.
Proof.
  induction s as [|a s IH]; simpl; [reflexivity|].
  intros H. apply orb_false_iff in H as [Ha Hs].
  rewrite (IH Hs), Ha. reflexivity.
Qed.

Lemma rfind_last (c : ascii) (pre post : string) :
  occurs c post = false ->
  rfind c (pre ++ String c post) = Z.of_nat (String.length pre).
Proof.
  intros H. induction pre as [|a pre IH]; simpl.
  - now rewrite (rfind_absent c post H), Ascii.eqb_refl.
  - rewrite IH. destruct (Z.of_nat (String.length pre) =? -1) eqn:E; lia.
Qed.



Lemma length_app (a b : string) :
  String.length (a ++ b) = (String.length a + String.length b)%nat.
Proof. induction a as [|x a IH]; simpl; [reflexivity | now rewrite IH]. Qed.

Lemma substring_prefix (b c : string) :
  String.substring 0 (String.length b) (b ++ c) = b.
Proof.
  induction b as [|x b IH]; simpl.
  - now destruct c.
  - now rewrite IH.
Qed.

Lemma substring_middle (a b c : string) :
  String.substring (String.length a) (String.length b) (a ++ b ++ c) = b.
Proof.
  induction a as [|x a IH]; simpl; [apply substring_prefix | exact IH].
Qed.

(** The slice from the first opening brace to the last closing one. *)
Lemma brace_span (pre mid post : string) :
  occurs "{" pre = false -> occurs "}" post = false ->
  let t := pre ++ "{" ++ mid ++ "}" ++ post in
  find "{" t = Z.of_nat (String.length pre) /\
  rfind "}" t + 1 > find "{" t /\
  slice t (find "{" t) (rfind "}" t + 1) = "{" ++ mid ++ "}".
Proof.
  intros Hpre Hpost t.
  assert (Hf : find "{" t = Z.of_nat (String.length pre)).
  { subst t. change ("{" ++ mid ++ "}" ++ post)
      with (String "{"%char (mid ++ "}" ++ post)).
    now apply find_first. }
  assert (Hr : rfind "}" t
               = Z.of_nat (String.length (pre ++ "{" ++ mid))).
  { subst t.
    replace (pre ++ "{" ++ mid ++ "}" ++ post)
      with ((pre ++ "{" ++ mid) ++ String "}"%char post)
      by (now rewrite !append_assoc).
    now apply rfind_last. }
  rewrite !length_app in Hr. simpl in Hr.
  split; [exact Hf|]. split; [lia|].
  unfold slice. rewrite Hf, Hr.
  replace (Z.to_nat (Z.of_nat (String.length pre))) with (String.length pre)
    by lia.
  replace (Z.to_nat (Z.of_nat (String.length pre + S (String.length mid)) + 1
                     - Z.of_nat (String.length pre)))
    with (String.length ("{" ++ mid ++ "}"))
    by (rewrite !length_app; simpl; lia).
  subst t.
  replace (pre ++ "{" ++ mid ++ "}" ++ post)
    with (pre ++ ("{" ++ mid ++ "}") ++ post)
    by (now rewrite !append_assoc).
  apply substring_middle.
Qed.

End FindFacts.

(** ** The intent parser *)

Section IntentHelpers.
Import Py Rt IntentParser.

Lemma fallback_intent_spec env (user_input user_id : string) st :
  exists body,
    _create_fallback_intent env user_input user_id st
    = (Return body, {| calls := calls st; drawn := S (S (drawn st)) |}) /\
    intent_invariants user_input user_id body /\
    rule_based_intent user_input body.
Proof.
  unfold _create_fallback_intent. destruct (detect user_input) as [w f] eqn:E.
  run. eexists. split; [reflexivity|]. unfold intent_invariants,
    rule_based_intent. rewrite E. simpl.
  repeat split; eexists; split; reflexivity.
Qed.

(** [_parse_gemini_response] never raises and never calls out; what it
    returns is an intent made from the answer or by the rules. *)
Lemma parse_response_cases env (j : json) (user_input user_id : string) st :
  exists body st',
    _parse_gemini_response env j user_input user_id st = (Return body, st') /\
    calls st' = calls st /\
    intent_invariants user_input user_id body /\
    (ai_intent body \/ rule_based_intent user_input body).
Proof.
  assert (Hfb : forall st1, calls st1 = calls st ->
    exists body st',
      _create_fallback_intent env user_input user_id st1 = (Return body, st') /\
      calls st' = calls st /\
      intent_invariants user_input user_id body /\
      (ai_intent body \/ rule_based_intent user_input body)).
  { intros st1 H1.
    destruct (fallback_intent_spec env user_input user_id st1)
      as (body & -> & Hi & Hr).
    do 2 eexists. split; [reflexivity|]. split; [exact H1|]. auto. }
  unfold _parse_gemini_response, parsed_intent. run.
  destruct (jget_default "candidates" _ j) as [candidates|e];
    [|now apply Hfb].
  destruct (json_truthy candidates); [|now apply Hfb].
  destruct (first_item candidates) as [c|e]; [|now apply Hfb].
  destruct (jget_default "content" _ c) as [content|e]; [|now apply Hfb].
  destruct (jget_default "parts" _ content) as [parts|e]; [|now apply Hfb].
  destruct (json_truthy parts); [|now apply Hfb].
  destruct (first_item parts) as [p|e]; [|now apply Hfb].
  destruct (jget_default "text" _ p) as [text_content|e]; [|now apply Hfb].
  destruct text_content as [| | | |t| |]; try now apply Hfb.
  destruct (embedded_intent env t user_input) as [| | | | | |ms];
    try (simpl; now apply Hfb).
  simpl. do 2 eexists. split; [reflexivity|]. split; [reflexivity|].
  split.
  - repeat split; eexists; split; reflexivity.
  - left. repeat split.
Qed.

(** The call to Gemini never raises; without a credential nothing is
    sent, with one the call is logged once. *)
Lemma intent_call_spec env (user_input : string) st :
  exists response st',
    _call_gemini_api env user_input st = (Return response, st') /\
    drawn st' = drawn st /\
    match GEMINI_API_KEY env with
    | Some key =>
        if nonempty key then
          exists o,
            calls st' = o :: calls st /\
            url o = gemini_url /\
            headers o = [("Content-Type", "application/json");
                         ("x-goog-api-key", key)] /\
            response = match requests_post env o with
                       | Responded status_code _ (Some result) =>
                           if status_code =? 200 then Some result else None
                       | _ => None
                       end
        else st' = st /\ response = None
    | None => st' = st /\ response = None
    end.
Proof.
  unfold _call_gemini_api. destruct (GEMINI_API_KEY env) as [key|].
  - destruct (nonempty key).
    + run. 
      match goal with |- context [requests_post env ?o] =>
        destruct (requests_post env o) as [|sc txt [result|]] eqn:E
      end; simpl.
      * do 2 eexists. split; [reflexivity|]. split; [reflexivity|].
        eexists. split; [reflexivity|]. simpl.
        split; [reflexivity|]. split; [reflexivity|]. now rewrite E.
      * destruct (sc =? 200) eqn:Es; simpl;
          do 2 eexists; (split; [reflexivity|]); (split; [reflexivity|]);
          eexists; (split; [reflexivity|]); simpl;
          (split; [reflexivity|]); (split; [reflexivity|]);
          now rewrite E, Es.
      * destruct (sc =? 200) eqn:Es; simpl;
          do 2 eexists; (split; [reflexivity|]); (split; [reflexivity|]);
          eexists; (split; [reflexivity|]); simpl;
          (split; [reflexivity|]); (split; [reflexivity|]);
          rewrite E; reflexivity.
    + do 2 eexists. repeat split.
  - do 2 eexists. repeat split.
Qed.

End IntentHelpers.

Section IntentExtraction.
Import Py Rt IntentParser FindFacts.


(** The slice that [embedded_intent] hands to [json.loads]. *)
Lemma embedded_json_at env (pre mid post user_input : string) :
  occurs "{" pre = false -> occurs "}" post = false ->
  embedded_intent env (pre ++ "{" ++ mid ++ "}" ++ post) user_input =
  match json_loads env ("{" ++ mid ++ "}") with
  | Some gemini_intent => gemini_intent
  | None => stand_in_intent user_input
  end.
Proof.
  intros Hpre Hpost. unfold embedded_intent. fold (stand_in_intent user_input).
  destruct (brace_span pre mid post Hpre Hpost) as (Hf & Hgt & ->).
  rewrite Hf in *.
  destruct (Z.of_nat (String.length pre) =? -1) eqn:E; [lia|].
  destruct (_ >? _) eqn:E'; [reflexivity | lia].
Qed.





End IntentExtraction.

Section IntentDispatch.
Import Py Rt IntentParser.

(** The handler of [/v1/parse] answers 200 for every non-empty input; at
    most one call goes out, and the intent keeps the invariants. *)
Lemma intent_parsing_cases env (r : request) st :
  nonempty (user_input_of r) = true ->
  exists body st',
    _handle_intent_parsing env r st = (Return (200, body), st') /\
    intent_invariants (user_input_of r) (get r "user_id" "anonymous") body /\
    (ai_intent body \/ rule_based_intent (user_input_of r) body) /\
    (calls st' = calls st \/ exists o, calls st' = o :: calls st).
Proof.
  intros Hin. unfold _handle_intent_parsing, _send_json_response. run.
  rewrite Hin. simpl.
  destruct (intent_call_spec env (user_input_of r) st)
    as (response & st1 & -> & _ & Hcall).
  assert (Hlog : calls st1 = calls st \/ exists o, calls st1 = o :: calls st).
  { destruct (GEMINI_API_KEY env) as [key|]; [destruct (nonempty key)|].
    - destruct Hcall as (o & Ho & _). right. now exists o.
    - destruct Hcall as [-> _]. now left.
    - destruct Hcall as [-> _]. now left. }
  clear Hcall.
  destruct (answered response) as [gemini_response|].
  - destruct (parse_response_cases env gemini_response (user_input_of r)
                (get r "user_id" "anonymous") st1)
      as (body & st2 & -> & Hc & Hi & Hk).
    do 2 eexists. split; [reflexivity|]. rewrite Hc. auto.
  - destruct (fallback_intent_spec env (user_input_of r)
                (get r "user_id" "anonymous") st1) as (body & -> & Hi & Hr).
    do 2 eexists. split; [reflexivity|]. simpl. auto.
Qed.


(** X21. Every intent that [/v1/parse] answers, made from Gemini's answer or
    by the rules, echoes the caller's user and input, and its function
    carries the confidence and the topic of the intent.  An intent made
    from Gemini's answer always names the function [create_blog_post] of
    the provider [demo-content-mcp], with content type [blog_post] and
    target length 800, whatever workflow type Gemini returned. *)
Theorem intent_answers_are_consistent env (r : request) st :
  nonempty (user_input_of r) = true ->
  exists body st',
    do_POST env "/v1/parse" (Json r) st = (Return (200, body), st') /\
    intent_invariants (user_input_of r) (get r "user_id" "anonymous") body /\
    (ai_intent body \/ rule_based_intent (user_input_of r) body).
Proof.
  intros Hin. unfold do_POST, loads_request. run. simpl.
  destruct (intent_parsing_cases env r st Hin) as (b & st' & -> & Hi & Hk & _).
  eauto.
Qed.

Lemma intent_answers_are_consistent_witness :
  exists body st',
    do_POST (env_reading "{workflow_type: image-generation}"
               (JObj [("workflow_type", JStr "image-generation")])
               "{workflow_type: image-generation}")
      "/v1/parse" (Json parse_request) st0 = (Return (200, body), st') /\
    jget "workflow_type" body = Some (JStr "image-generation") /\
    jthen (function0 body) (jget "name") = Some (JStr "create_blog_post").
Proof.
  destruct (intent_answers_are_consistent
              (env_reading "{workflow_type: image-generation}"
                 (JObj [("workflow_type", JStr "image-generation")])
                 "{workflow_type: image-generation}")
              parse_request st0) as (body & st' & H & _ & Hk);
    [reflexivity|].
  exists body, st'. split; [exact H|].
  vm_compute in H. inversion H; subst. split; reflexivity.
Defined.

(** X22. The input is "input" if the request has it, even empty, and "text"
    only otherwise: a request whose "input" is the empty string is
    refused with 400 although its "text" is filled in, and when "input"
    is there the answer does not depend on "text". *)
Theorem input_masks_text env (r : request) (i : string) st :
  text r !! "input" = Some i ->
  user_input_of r = i /\
  (forall t,
     do_POST env "/v1/parse" (Json (set_text "text" t r)) st
     = do_POST env "/v1/parse" (Json r) st) /\
  (i = "" ->
   exists body,
     do_POST env "/v1/parse" (Json r) st = (Return (400, body), st) /\
     jget "message" body = Some (JStr "Missing 'input' or 'text' field")).
Proof.
  intros Hi.
  assert (E : user_input_of r = i) by (unfold user_input_of; now rewrite Hi).
  split; [exact E|]. split.
  - intros t.
    assert (E' : user_input_of (set_text "text" t r) = i).
    { unfold user_input_of, set_text; simpl.
      rewrite lookup_insert_ne by discriminate. now rewrite Hi. }
    unfold do_POST, _handle_intent_parsing, loads_request. run.
    rewrite E, E'.
    assert (Hg : forall k d, k <> "text" ->
                 get (set_text "text" t r) k d = get r k d).
    { intros k d Hk. unfold get, set_text; simpl.
      now rewrite lookup_insert_ne by congruence. }
    rewrite !Hg by discriminate. reflexivity.
  - intros ->. unfold do_POST, _handle_intent_parsing, loads_request. run.
    rewrite E. simpl. eexists. split; reflexivity.
Qed.

Lemma input_masks_text_witness :
  exists body,
    do_POST env_quota "/v1/parse"
      (Json {| text := {[ "input" := ""; "text" := "write a post about tea" ]};
               ints := ∅ |}) st0 = (Return (400, body), st0) /\
    jget "message" body = Some (JStr "Missing 'input' or 'text' field").
Proof.
  apply (input_masks_text env_quota
           {| text := {[ "input" := ""; "text" := "write a post about tea" ]};
              ints := ∅ |} "" st0); reflexivity.
Defined.

(** X23. When the upstream gives nothing to parse (transport failure, a status
    other than 200, a body that is not JSON or a JSON value that counts
    as false), the intent parser answers 200 with the intent of the
    keyword rules, after the one call that failed. *)
Theorem intent_falls_back_to_rules env (r : request) st key :
  GEMINI_API_KEY env = Some key -> nonempty key = true ->
  nonempty (user_input_of r) = true ->
  (forall o, nothing_to_parse (requests_post env o)) ->
  exists body st' o,
    do_POST env "/v1/parse" (Json r) st = (Return (200, body), st') /\
    rule_based_intent (user_input_of r) body /\
    calls st' = o :: calls st /\ url o = gemini_url.
Proof.
  intros Hkey Hne Hin Hfail.
  unfold do_POST, _handle_intent_parsing, _send_json_response,
    loads_request. run. simpl. rewrite Hin. simpl.
  destruct (intent_call_spec env (user_input_of r) st)
    as (response & st1 & -> & _ & Hcall).
  rewrite Hkey, Hne in Hcall. destruct Hcall as (o & Ho & Hu & _ & ->).
  specialize (Hfail o).
  assert (Hnone : answered
            match requests_post env o with
            | Responded status_code _ (Some result) =>
                if status_code =? 200 then Some result else None
            | _ => None
            end = None).
  { destruct (requests_post env o) as [|sc txt [j|]]; simpl in *;
      [reflexivity | | reflexivity].
    destruct (sc =? 200) eqn:Es; [|reflexivity].
    destruct Hfail as [Hsc | Hj]; [lia|]. simpl. now rewrite Hj. }
  rewrite Hnone.
  destruct (fallback_intent_spec env (user_input_of r)
              (get r "user_id" "anonymous") st1) as (body & -> & _ & Hr).
  do 3 eexists. split; [reflexivity|]. simpl. eauto.
Qed.

Lemma intent_falls_back_to_rules_witness :
  exists body st' o,
    do_POST env_quota "/v1/parse" (Json parse_request) st0
    = (Return (200, body), st') /\
    rule_based_intent "generate an image of a cat" body /\
    calls st' = [o] /\ url o = gemini_url.
Proof.
  apply (intent_falls_back_to_rules env_quota parse_request st0 "test-key");
    try reflexivity.
  intros o. left. discriminate.
Defined.

End IntentDispatch.

Section IntentRules.
Import Py Rt IntentParser StrFacts.

(** X24. The keyword rules know three intents and no other.  Each comes with
    its function name, a description in which every hyphen of the
    workflow type has become a space, and a content type that is the
    workflow type up to its first hyphen.  Two identifiers are drawn, the
    intent's first and the function's after it. *)
Theorem rules_know_three_intents env (user_input user_id : string) st :
  exists body,
    _create_fallback_intent env user_input user_id st
    = (Return body, {| calls := calls st; drawn := S (S (drawn st)) |}) /\
    jget "intent_id" body = Some (JStr (str_uuid (uuid4_hex env (drawn st)))) /\
    jthen (function0 body) (jget "id")
    = Some (JStr (str_uuid (uuid4_hex env (S (drawn st))))) /\
    In (jget "workflow_type" body,
        jthen (function0 body) (jget "name"),
        jthen (function0 body) (jget "description"),
        jthen (function0 body) (jpath ["parameters"; "content_type"]))
       [(Some (JStr "blog-post-generation"), Some (JStr "create_blog_post"),
         Some (JStr "Generate blog post generation content"),
         Some (JStr "blog"));
        (Some (JStr "image-generation"), Some (JStr "create_image"),
         Some (JStr "Generate image generation content"),
         Some (JStr "image"));
        (Some (JStr "content-generation"), Some (JStr "create_content"),
         Some (JStr "Generate content generation content"),
         Some (JStr "content"))].
Proof.
  unfold _create_fallback_intent, detect.
  destruct (any _ blog_words); [|destruct (any _ image_words)];
    run; eexists; (split; [reflexivity|]); (split; [reflexivity|]);
    (split; [reflexivity|]); simpl; auto.
Qed.

(** X25. With a credential, a request with an input makes exactly one call,
    whatever comes back: to the Gemini endpoint, with the credential in
    the [x-goog-api-key] header, an output limit of 1000 tokens, and a
    prompt in which the input stands as it was typed. *)
Theorem intent_request_calls_once env key (r : request) st :
  GEMINI_API_KEY env = Some key -> nonempty key = true ->
  nonempty (user_input_of r) = true ->
  exists o,
    calls (snd (do_POST env "/v1/parse" (Json r) st)) = o :: calls st /\
    url o = gemini_url /\
    headers o = [("Content-Type", "application/json"); ("x-goog-api-key", key)] /\
    jpath ["generationConfig"; "maxOutputTokens"] (body o) = Some (JInt 1000) /\
    jthen (jthen (jthen (jthen (jget "contents" (body o)) jfirst)
                    (jget "parts")) jfirst) (jget "text")
    = Some (JStr (intent_prompt (user_input_of r))) /\
    contains (user_input_of r) (intent_prompt (user_input_of r)) = true.
Proof.
  intros Hkey Hne Hin. eexists. split; [|repeat split].
  - unfold do_POST, _handle_intent_parsing, _send_json_response,
      loads_request. run. simpl. rewrite Hin. simpl.
    unfold _call_gemini_api. rewrite Hkey, Hne. run.
    set (st1 := {| calls := _ :: calls st; drawn := drawn st |}).
    destruct (requests_post env _) as [|sc txt [result|]]; simpl;
      fold st1.
    + destruct (fallback_intent_spec env (user_input_of r)
                  (get r "user_id" "anonymous") st1) as (b & -> & _).
      reflexivity.
    + destruct (sc =? 200); simpl; fold st1.
      * destruct (json_truthy result); simpl.
        -- destruct (parse_response_cases env result (user_input_of r)
                       (get r "user_id" "anonymous") st1)
             as (b & s & -> & Hc & _). simpl. exact Hc.
        -- destruct (fallback_intent_spec env (user_input_of r)
                       (get r "user_id" "anonymous") st1) as (b & -> & _).
           reflexivity.
      * destruct (fallback_intent_spec env (user_input_of r)
                    (get r "user_id" "anonymous") st1) as (b & -> & _).
        reflexivity.
    + destruct (sc =? 200); simpl; fold st1;
        destruct (fallback_intent_spec env (user_input_of r)
                    (get r "user_id" "anonymous") st1) as (b & -> & _);
        reflexivity.
  - reflexivity.
  - reflexivity.
  - reflexivity.
  - reflexivity.
  - apply contains_spec. unfold intent_prompt. eauto.
Qed.

Lemma intent_request_calls_once_witness :
  exists o,
    calls (snd (do_POST env_quota "/v1/parse" (Json parse_request) st0)) = [o] /\
    url o = gemini_url /\
    headers o = [("Content-Type", "application/json");
                 ("x-goog-api-key", "test-key")].
Proof.
  destruct (intent_request_calls_once env_quota "test-key" parse_request st0)
    as (o & H1 & H2 & H3 & _); [reflexivity | reflexivity | reflexivity |].
  exists o. split; [exact H1|]. split; [exact H2 | exact H3].
Defined.

(** X26. The health endpoint of the intent parser is no check: it reports the
    model as connected in every process, also in one that has no
    credential and answers every request by the keyword rules. *)
Theorem intent_health_is_static env (r : request) st :
  truthy (GEMINI_API_KEY env) = false ->
  nonempty (user_input_of r) = true ->
  (exists health,
     do_GET env "/health" st = (Return (200, health), st) /\
     jget "status" health = Some (JStr "healthy") /\
     jget "llm_status" health = Some (JStr "connected")) /\
  (exists body st',
     do_POST env "/v1/parse" (Json r) st = (Return (200, body), st') /\
     rule_based_intent (user_input_of r) body).
Proof.
  intros Hkey Hin. split.
  - eexists. repeat split.
  - unfold do_POST, _handle_intent_parsing, _send_json_response,
      loads_request. run. simpl. rewrite Hin. simpl.
    rewrite intent_api_without_key by assumption. simpl.
    destruct (fallback_intent_spec env (user_input_of r)
                (get r "user_id" "anonymous") st) as (body & -> & _ & Hr).
    do 2 eexists. split; [reflexivity | exact Hr].
Qed.

Lemma intent_health_is_static_witness :
  (exists health,
     do_GET env_without_key "/health" st0 = (Return (200, health), st0) /\
     jget "status" health = Some (JStr "healthy") /\
     jget "llm_status" health = Some (JStr "connected")) /\
  (exists body st',
     do_POST env_without_key "/v1/parse" (Json parse_request) st0
     = (Return (200, body), st') /\
     rule_based_intent "generate an image of a cat" body).
Proof.
  apply (intent_health_is_static env_without_key parse_request st0);
    reflexivity.
Defined.

End IntentRules.

(** ** What the intent parser takes from Gemini's answer *)

Section IntentMembers.
Import Py Rt IntentParser.

(** X28. When the JSON object in Gemini's text is accepted, its
    [workflow_type], [confidence], [topic], [title] and [requirements]
    go into the intent as they are, and a default stands for each one
    that is missing: "blog-post-generation", 0.8, the input, a title made
    from the input, no requirements.  The title has two defaults:
    "Content about: ..." in the intent, "Blog post about: ..." in the
    function. *)
Theorem intent_members_pass_through env (r : request) st txt key
    (pre mid post : string) (ms : list (string * json)) :
  GEMINI_API_KEY env = Some key -> nonempty key = true ->
  nonempty (user_input_of r) = true ->
  (forall o, requests_post env o
             = Responded 200 txt
                 (Some (gemini_answer (pre ++ "{" ++ mid ++ "}" ++ post)))) ->
  occurs "{" pre = false -> occurs "}" post = false ->
  json_loads env ("{" ++ mid ++ "}") = Some (JObj ms) ->
  let user_input := user_input_of r in
  exists body st',
    do_POST env "/v1/parse" (Json r) st = (Return (200, body), st') /\
    ai_intent body /\
    jget "workflow_type" body
    = Some (member_or "workflow_type" (JStr "blog-post-generation") ms) /\
    jget "confidence" body
    = Some (member_or "confidence" (JFloat (literal 8 10)) ms) /\
    jpath ["parsed_intent"; "topic"] body
    = Some (member_or "topic" (JStr user_input) ms) /\
    jpath ["parsed_intent"; "title"] body
    = Some (member_or "title" (JStr ("Content about: " ++ user_input)) ms) /\
    jpath ["parsed_intent"; "requirements"] body
    = Some (member_or "requirements" (JList []) ms) /\
    jthen (function0 body) (jpath ["parameters"; "title"])
    = Some (member_or "title" (JStr ("Blog post about: " ++ user_input)) ms).
Proof.
  intros Hkey Hne Hin Hpost Hpre Hpostfix Hloads user_input. subst user_input.
  unfold do_POST, _handle_intent_parsing, loads_request. run. simpl.
  rewrite Hin. simpl.
  unfold _call_gemini_api. rewrite Hkey, Hne. run. rewrite Hpost. simpl.
  unfold _parse_gemini_response, parsed_intent. run. simpl.
  rewrite (embedded_json_at env pre mid post (user_input_of r) Hpre Hpostfix).
  rewrite Hloads. simpl.
  do 2 eexists. split; [reflexivity|]. repeat split.
Qed.

Lemma intent_members_pass_through_witness :
  exists body st',
    do_POST (env_reading "{topic: tea}" (JObj [("topic", JStr "tea")])
               "Here you go: {topic: tea} Done.")
      "/v1/parse" (Json parse_request) st0 = (Return (200, body), st') /\
    jpath ["parsed_intent"; "topic"] body = Some (JStr "tea") /\
    jpath ["parsed_intent"; "title"] body
    = Some (JStr "Content about: generate an image of a cat") /\
    jthen (function0 body) (jpath ["parameters"; "title"])
    = Some (JStr "Blog post about: generate an image of a cat").
Proof.
  destruct (intent_members_pass_through
              (env_reading "{topic: tea}" (JObj [("topic", JStr "tea")])
                 "Here you go: {topic: tea} Done.")
              parse_request st0 "..." "test-key"
              "Here you go: " "topic: tea" " Done." [("topic", JStr "tea")])
    as (body & st' & H1 & _ & _ & _ & H2 & H3 & _ & H4);
    [reflexivity | reflexivity | reflexivity | intros o; reflexivity
    | reflexivity | reflexivity | reflexivity |].
  exists body, st'. split; [exact H1|]. split; [exact H2|].
  split; [exact H3 | exact H4].
Defined.

(** X29. A 200 answer of Gemini that has no candidate (no "candidates"
    member, or an empty list, as when the prompt was blocked) is not an
    error: the request is answered 200 with the intent of the keyword
    rules. *)
Theorem answer_without_candidates env (r : request) st txt key
    (ms : list (string * json)) :
  GEMINI_API_KEY env = Some key -> nonempty key = true ->
  nonempty (user_input_of r) = true ->
  (forall o, requests_post env o = Responded 200 txt (Some (JObj ms))) ->
  member_or "candidates" (JList []) ms = JList [] ->
  exists body st',
    do_POST env "/v1/parse" (Json r) st = (Return (200, body), st') /\
    rule_based_intent (user_input_of r) body.
Proof.
  intros Hkey Hne Hin Hpost Hnone.
  unfold do_POST, _handle_intent_parsing, _send_json_response,
    loads_request. run. simpl. rewrite Hin. simpl.
  unfold _call_gemini_api. rewrite Hkey, Hne. run. rewrite Hpost. simpl.
  destruct ms as [|m ms']; simpl.
  - match goal with
    | |- context [_create_fallback_intent env ?u ?i ?s] =>
        destruct (fallback_intent_spec env u i s) as (body & -> & _ & Hr)
    end.
    do 2 eexists. split; [reflexivity | exact Hr].
  - unfold _parse_gemini_response, parsed_intent. run.
    unfold jget_default. fold (member_or "candidates" (JList []) (m :: ms')).
    rewrite Hnone. simpl.
    match goal with
    | |- context [_create_fallback_intent env ?u ?i ?s] =>
        destruct (fallback_intent_spec env u i s) as (body & -> & _ & Hr)
    end.
    do 2 eexists. split; [reflexivity | exact Hr].
Qed.

Lemma answer_without_candidates_witness :
  exists body st',
    do_POST (env_with (Some "test-key")
               (Responded 200 "..."
                  (Some (JObj [("promptFeedback",
                                JObj [("blockReason", JStr "SAFETY")])]))))
      "/v1/parse" (Json parse_request) st0 = (Return (200, body), st') /\
    rule_based_intent "generate an image of a cat" body.
Proof.
  apply (answer_without_candidates
           (env_with (Some "test-key")
              (Responded 200 "..."
                 (Some (JObj [("promptFeedback",
                               JObj [("blockReason", JStr "SAFETY")])]))))
           parse_request st0 "..." "test-key"
           [("promptFeedback", JObj [("blockReason", JStr "SAFETY")])]);
    reflexivity.
Defined.

End IntentMembers.
